(** * langchain-toon-output-parser: instruction synthesis and response parsing

    A shallow embedding of
    - [zod-to-toon-instructions.ts] (schema introspection, example
      generation, enum constraints, instruction text), and
    - [toon-output-parser.ts] (response extraction and the
      decode-and-validate pipeline),
    followed by the properties of these functions.

    Strings.  A JavaScript string is a sequence of UTF-16 code units.  The
    development works with the code units below 256, written as [ascii];
    [string] is a sequence of such units.  In that range the class [\s] of
    a regular expression and the set stripped by [String.prototype.trim]
    are both {9, 10, 11, 12, 13, 32, 160}.

    Objects.  A [Record<string, X>] is written as the list of its entries in
    the order [Object.entries] enumerates them; the keys of such a list are
    pairwise distinct.  Copying the entries one by one into a fresh object
    with [fields[key] = ...] (as [getSchemaShape] does) keeps that order,
    with one exception: the assignment to the key [__proto__] sets the
    prototype of the fresh object and adds no entry, so that such a field
    is lost. *)

From Stdlib Require Import String Ascii List Bool Arith Lia.
From Stdlib Require Import DecimalString.
Import ListNotations.
Open Scope string_scope.
Set Warnings "-register-all".

(* ================================================================= *)
(** ** JavaScript string primitives used by the sources *)

Module Js.

Definition LF : ascii := "010"%char.
Definition quote : ascii := "034"%char.
Definition backslash : ascii := "092"%char.
Definition backtick : ascii := "096"%char.

(** One-character strings for the characters that cannot be written
    inside a literal. *)
Definition nl : string := String LF EmptyString.
Definition dq : string := String quote EmptyString.

(** [WhiteSpace] and [LineTerminator] code units below 256: TAB, LF, VT,
    FF, CR, SP and NBSP.  This is the class [\s] and the set removed by
    [trim]. *)
Definition isWhiteSpace (c : ascii) : bool :=
  existsb (Ascii.eqb c)
    ["009"; "010"; "011"; "012"; "013"; "032"; "160"]%char.

(** Truthiness of a string: the empty string is falsy. *)
Definition truthy (s : string) : bool :=
  match s with EmptyString => false | String _ _ => true end.

Fixpoint trimStart (s : string) : string :=
  match s with
  | EmptyString => EmptyString
  | String c s' => if isWhiteSpace c then trimStart s' else s
  end.

Fixpoint trimEnd (s : string) : string :=
  match s with
  | EmptyString => EmptyString
  | String c s' =>
      match trimEnd s' with
      | EmptyString => if isWhiteSpace c then EmptyString
                       else String c EmptyString
      | r => String c r
      end
  end.

(** [String.prototype.trim] *)
Definition trim (s : string) : string := trimEnd (trimStart s).

(** [String.prototype.repeat] *)
Fixpoint repeat (s : string) (n : nat) : string :=
  match n with
  | O => EmptyString
  | S n' => s ++ repeat s n'
  end.

(** [Array.prototype.join] on an array of strings *)
Fixpoint join (sep : string) (l : list string) : string :=
  match l with
  | [] => EmptyString
  | [x] => x
  | x :: rest => x ++ sep ++ join sep rest
  end.

(** [s] starts with [p]; the rest of [s] is returned. *)
Fixpoint stripPrefix (p s : string) : option string :=
  match p, s with
  | EmptyString, _ => Some s
  | String a p', String b s' =>
      if Ascii.eqb a b then stripPrefix p' s' else None
  | String _ _, EmptyString => None
  end.

Definition startsWith (p s : string) : bool :=
  match stripPrefix p s with Some _ => true | None => false end.

(** [String.prototype.includes] *)
Fixpoint includes (p s : string) : bool :=
  startsWith p s ||
  match s with
  | EmptyString => false
  | String _ s' => includes p s'
  end.

(** [RegExp.prototype.test] for a one-character class: some code unit of
    [s] is in the class. *)
Fixpoint testClass (cls : ascii -> bool) (s : string) : bool :=
  match s with
  | EmptyString => false
  | String c s' => cls c || testClass cls s'
  end.

(** [Number.prototype.toString] on a non-negative integer *)
Definition natToString (n : nat) : string :=
  NilZero.string_of_uint (Nat.to_uint n).

End Js.

(* ================================================================= *)
(** ** Schemas and shapes *)

(** The schema values the introspector distinguishes with [instanceof].
    [ZodOther] stands for every other node kind of the schema library
    (unions, literals, records, lazy schemas, ...). *)
Inductive ZodType : Type :=
| ZodOptional (innerType : ZodType)
| ZodNullable (innerType : ZodType)
| ZodDefault (innerType : ZodType)
| ZodObject (shape : list (string * ZodType))
| ZodArray (type : ZodType)
| ZodString
| ZodNumber
| ZodBoolean
| ZodDate
| ZodEnum (values : list string)
| ZodOther (typeName : string).

(** [type SchemaShape]; the [values] of an enum shape is an optional
    property. *)
Inductive SchemaShape : Type :=
| SObject (fields : list (string * SchemaShape))
| SArray (element : SchemaShape)
| SString
| SNumber
| SBoolean
| SDate
| SEnum (values : option (list string)).

(** One enum constraint record [{ field, values }]. *)
Record EnumConstraint : Type := mkConstraint {
  field : string;
  values : list string
}.

(** The [while] loop at the head of [getSchemaShape]. *)
Fixpoint unwrap (schema : ZodType) : ZodType :=
  match schema with
  | ZodOptional inner | ZodNullable inner | ZodDefault inner => unwrap inner
  | other => other
  end.

Definition isModifier (schema : ZodType) : bool :=
  match schema with
  | ZodOptional _ | ZodNullable _ | ZodDefault _ => true
  | _ => false
  end.

(** [getSchemaShape]: the modifier cases are the iterations of the loop,
    the others the chain of [instanceof] tests.  In the object case
    [fields[key] = getSchemaShape(value)] adds an entry for every key but
    [__proto__]. *)
Fixpoint getSchemaShape (schema : ZodType) : SchemaShape :=
  match schema with
  | ZodOptional inner | ZodNullable inner | ZodDefault inner =>
      getSchemaShape inner
  | ZodObject shape =>
      SObject
        ((fix entries (l : list (string * ZodType)) :=
            match l with
            | [] => []
            | (key, value) :: rest =>
                if String.eqb key "__proto__" then entries rest
                else (key, getSchemaShape value) :: entries rest
            end) shape)
  | ZodArray type => SArray (getSchemaShape type)
  | ZodString => SString
  | ZodNumber => SNumber
  | ZodBoolean => SBoolean
  | ZodDate => SDate
  | ZodEnum values => SEnum (Some values)
  | ZodOther _ => SString
  end.

(* ================================================================= *)
(** ** The instruction synthesizer (revision with field constraints) *)

Module Synth.
Import Js.

(** The character class of the regular expression in [getExampleValue]:
    comma, colon, [\s], double quote, backslash. *)
Definition quoteClass (c : ascii) : bool :=
  Ascii.eqb c ","%char || Ascii.eqb c ":"%char || isWhiteSpace c
  || Ascii.eqb c quote || Ascii.eqb c backslash.

Definition needsQuotes (value : string) : bool := testClass quoteClass value.

(** [getExampleValue] *)
Definition getExampleValue (shape : SchemaShape) (alternate : bool) : string :=
  match shape with
  | SString => if alternate then dq ++ "example2" ++ dq
               else dq ++ "example1" ++ dq
  | SNumber => if alternate then "42" else "123"
  | SBoolean => if alternate then "false" else "true"
  | SDate => if alternate then "2025-01-02T00:00:00Z"
             else "2025-01-01T00:00:00Z"
  | SEnum (Some (v0 :: rest)) =>
      let value :=
        match alternate, rest with
        | true, v1 :: _ => v1
        | _, _ => v0
        end in
      if needsQuotes value then dq ++ value ++ dq else value
  | SEnum _ => dq ++ "value" ++ dq
  | _ => if alternate then dq ++ "value2" ++ dq else dq ++ "value1" ++ dq
  end.

(** The tabular block of an array of objects: header and two rows. *)
Definition tableExample (fields : list (string * SchemaShape)) (indent : nat)
  : string :=
  let fieldNames := map fst fields in
  let header := "[2]{" ++ join "," fieldNames ++ "}:" in
  let row1Values := map (fun kv => getExampleValue (snd kv) false) fields in
  let row2Values := map (fun kv => getExampleValue (snd kv) true) fields in
  let spaces2 := repeat "  " indent in
  header ++ nl ++ spaces2 ++ "  " ++ join "," row1Values
         ++ nl ++ spaces2 ++ "  " ++ join "," row2Values.

(** [generateToonExample] *)
Fixpoint generateToonExample (shape : SchemaShape) (indent : nat) : string :=
  let spaces := repeat "  " indent in
  match shape with
  | SObject fields =>
      join nl
        ((fix lines (l : list (string * SchemaShape)) : list string :=
            match l with
            | [] => []
            | (key, fieldShape) :: rest =>
                match fieldShape with
                | SArray _ =>
                    (spaces ++ key ++ generateToonExample fieldShape indent)
                      :: lines rest
                | SObject _ =>
                    (spaces ++ key ++ ":")
                      :: generateToonExample fieldShape (indent + 1)
                      :: lines rest
                | _ =>
                    (spaces ++ key ++ ": " ++ getExampleValue fieldShape false)
                      :: lines rest
                end
            end) fields)
  | SArray element =>
      match element with
      | SObject fields => tableExample fields indent
      | _ => "[2]: " ++ getExampleValue element false
                     ++ "," ++ getExampleValue element true
      end
  | _ => getExampleValue shape false
  end.

(** [collectEnumConstraints] *)
Fixpoint collectEnumConstraints (shape : SchemaShape) (prefix : string)
  : list EnumConstraint :=
  match shape with
  | SObject fields =>
      (fix each (l : list (string * SchemaShape)) : list EnumConstraint :=
         match l with
         | [] => []
         | (key, fieldShape) :: rest =>
             let fieldPath :=
               if truthy prefix then prefix ++ "." ++ key else key in
             List.app
               match fieldShape with
               | SEnum (Some vs) => [mkConstraint fieldPath vs]
               | SObject _ => collectEnumConstraints fieldShape fieldPath
               | SArray element =>
                   match element with
                   | SEnum (Some vs) => [mkConstraint (fieldPath ++ "[]") vs]
                   | SObject _ =>
                       collectEnumConstraints element (fieldPath ++ "[]")
                   | _ => []
                   end
               | _ => []
               end
               (each rest)
         end) fields
  | _ => []
  end.

Definition constraintLine (c : EnumConstraint) : string :=
  "- " ++ field c ++ " must be one of: " ++ join ", " (values c).

(** The local [constraintsText] of [zodSchemaToToonInstructions]. *)
Definition constraintsText (enumConstraints : list EnumConstraint) : string :=
  match enumConstraints with
  | [] => EmptyString
  | _ => nl ++ nl ++ "Field Constraints:" ++ nl
            ++ join nl (map constraintLine enumConstraints)
  end.

Definition rulesText : string :=
  "Please respond in TOON format (Token-Oriented Object Notation)." ++ nl
  ++ nl
  ++ "TOON Format Rules:" ++ nl
  ++ "- Use 2-space indentation for nested objects" ++ nl
  ++ "- Arrays use the format: arrayName[count]{field1,field2,...}: where count is the actual number of items (e.g., [3] for 3 items)" ++ nl
  ++ "- Replace 'count' with the actual number of rows in your data" ++ nl
  ++ "- Fields are comma-separated (or tab-separated if specified)" ++ nl
  ++ "- Strings with commas, quotes, or newlines must be quoted and escaped".

Definition closingText : string :=
  nl ++ "```" ++ nl
  ++ nl
  ++ "Respond ONLY with the TOON-formatted data inside a code block.".

(** [zodSchemaToToonInstructions] *)
Definition zodSchemaToToonInstructions (schema : ZodType) : string :=
  let shape := getSchemaShape schema in
  let example := generateToonExample shape 0 in
  let enumConstraints := collectEnumConstraints shape EmptyString in
  rulesText ++ constraintsText enumConstraints ++ nl
  ++ nl
  ++ "Expected structure:" ++ nl
  ++ "```toon" ++ nl
  ++ example ++ closingText.

End Synth.

(* ================================================================= *)
(** ** The instruction synthesizer (revision with the [N] placeholder) *)

(** [src/zod-to-toon-instructions.ts] as imported by the parser's own test:
    it has no constraint collector, writes the row count as the
    placeholder [N], and quotes every enum literal. *)
Module Legacy.
Import Js.

(** [getExampleValue] *)
Definition getExampleValue (shape : SchemaShape) (alternate : bool) : string :=
  match shape with
  | SString => if alternate then dq ++ "example2" ++ dq
               else dq ++ "example1" ++ dq
  | SNumber => if alternate then "42" else "123"
  | SBoolean => if alternate then "false" else "true"
  | SDate => if alternate then "2025-01-02T00:00:00Z"
             else "2025-01-01T00:00:00Z"
  | SEnum (Some (v0 :: rest)) =>
      match alternate, rest with
      | true, v1 :: _ => dq ++ v1 ++ dq
      | _, _ => dq ++ v0 ++ dq
      end
  | SEnum _ => dq ++ "value" ++ dq
  | _ => if alternate then dq ++ "value2" ++ dq else dq ++ "value1" ++ dq
  end.

Definition tableExample (fields : list (string * SchemaShape)) (indent : nat)
  : string :=
  let fieldNames := map fst fields in
  let header := "[N]{" ++ join "," fieldNames ++ "}:" in
  let row1Values := map (fun kv => getExampleValue (snd kv) false) fields in
  let row2Values := map (fun kv => getExampleValue (snd kv) true) fields in
  let spaces2 := repeat "  " indent in
  header ++ nl ++ spaces2 ++ "  " ++ join "," row1Values
         ++ nl ++ spaces2 ++ "  " ++ join "," row2Values.

(** [generateToonExample] *)
Fixpoint generateToonExample (shape : SchemaShape) (indent : nat) : string :=
  let spaces := repeat "  " indent in
  match shape with
  | SObject fields =>
      join nl
        ((fix lines (l : list (string * SchemaShape)) : list string :=
            match l with
            | [] => []
            | (key, fieldShape) :: rest =>
                match fieldShape with
                | SArray _ =>
                    (spaces ++ key ++ generateToonExample fieldShape indent)
                      :: lines rest
                | SObject _ =>
                    (spaces ++ key ++ ":")
                      :: generateToonExample fieldShape (indent + 1)
                      :: lines rest
                | _ =>
                    (spaces ++ key ++ ": " ++ getExampleValue fieldShape false)
                      :: lines rest
                end
            end) fields)
  | SArray element =>
      match element with
      | SObject fields => tableExample fields indent
      | _ => "[N]: " ++ getExampleValue element false
                     ++ ", " ++ getExampleValue element true
      end
  | _ => getExampleValue shape false
  end.

Definition rulesText : string :=
  "Please respond in TOON format (Token-Oriented Object Notation)." ++ nl
  ++ nl
  ++ "TOON Format Rules:" ++ nl
  ++ "- Use 2-space indentation for nested objects" ++ nl
  ++ "- Arrays use the format: arrayName[N]{field1,field2,...}:" ++ nl
  ++ "- The [N] must match the actual number of rows" ++ nl
  ++ "- Fields are comma-separated (or tab-separated if specified)" ++ nl
  ++ "- Strings with commas, quotes, or newlines must be quoted and escaped".

(** [zodSchemaToToonInstructions] *)
Definition zodSchemaToToonInstructions (schema : ZodType) : string :=
  let shape := getSchemaShape schema in
  let example := generateToonExample shape 0 in
  rulesText ++ nl
  ++ nl
  ++ "Expected structure:" ++ nl
  ++ "```toon" ++ nl
  ++ example ++ Synth.closingText.

End Legacy.

(* ================================================================= *)
(** ** The output parser *)

Module Parser.
Import Js.

(** *** The regular expression of [extractToonContent]

    Three backticks, an optional tag [toon] or [yaml], [\s*], a line
    feed, a lazy capture of any characters, a line feed and three
    backticks.  The functions below are the backtracking search of
    [String.prototype.match] on this expression, innermost part first;
    each returns the capture (group 1) of the first successful
    alternative. *)

Definition fence : string := "```".
Definition closing : string := nl ++ fence.

(** The lazy group followed by the closing line feed and fence: the
    empty capture is tried first, then one more character at a time. *)
Fixpoint lazyGroup (s : string) : option string :=
  if startsWith closing s then Some EmptyString
  else match s with
       | EmptyString => None
       | String c s' => option_map (String c) (lazyGroup s')
       end.

(** What follows [\s*]: a line feed, then the group. *)
Definition afterSpaces (s : string) : option string :=
  match s with
  | String c s' => if Ascii.eqb c LF then lazyGroup s' else None
  | EmptyString => None
  end.

(** Greedy [\s*]: one more white-space character is taken first; when
    the rest fails with it, the search goes on from here. *)
Fixpoint spaceStar (s : string) : option string :=
  match s with
  | String c s' =>
      if isWhiteSpace c then
        match spaceStar s' with
        | Some g => Some g
        | None => afterSpaces s
        end
      else afterSpaces s
  | EmptyString => afterSpaces s
  end.

(** The optional tag: [toon], then [yaml], then no tag. *)
Definition afterFence (s : string) : option string :=
  match
    match stripPrefix "toon" s with
    | Some r => spaceStar r
    | None => None
    end
  with
  | Some g => Some g
  | None =>
      match
        match stripPrefix "yaml" s with
        | Some r => spaceStar r
        | None => None
        end
      with
      | Some g => Some g
      | None => spaceStar s
      end
  end.

(** A match that starts at the head of [s]. *)
Definition matchHere (s : string) : option string :=
  match stripPrefix fence s with
  | Some r => afterFence r
  | None => None
  end.

(** [text.match(codeBlockRegex)]: the leftmost start position that
    matches; the result is [match[1]]. *)
Fixpoint codeBlockMatch (text : string) : option string :=
  match matchHere text with
  | Some g => Some g
  | None =>
      match text with
      | EmptyString => None
      | String _ text' => codeBlockMatch text'
      end
  end.

(** [extractToonContent]; [None] is [null]. *)
Definition extractToonContent (text : string) : option string :=
  match codeBlockMatch text with
  | Some (String c g) => Some (trim (String c g))
  | _ =>
      let trimmed := trim text in
      if truthy trimmed then Some trimmed else None
  end.

(** *** Thrown values *)

Inductive PathSegment : Type :=
| Key (name : string)
| Index (i : nat).

Record ZodIssue : Type := mkIssue {
  path : list PathSegment;
  message : string
}.

(** A thrown value, as far as [parse] inspects it: an [Error] that is
    not a [ZodError], a [ZodError] (itself an [Error]), or any other
    value, given by its [String(...)] conversion. *)
Inductive Thrown : Type :=
| JsError (msg : string)
| ZodError (msg : string) (issues : list ZodIssue)
| NonError (text : string).

Inductive Completion (A : Type) : Type :=
| Normal (a : A)
| Throw (e : Thrown).
Arguments Normal {A} a.
Arguments Throw {A} e.

(** *** Options *)

(** [interface ToonOutputParserOptions]: both properties optional. *)
Record ToonOutputParserOptions : Type := mkOptions {
  delimiter : option string;
  strict : option bool
}.

(** [Required<ToonOutputParserOptions>], the type of [this.options]. *)
Record RequiredOptions : Type := mkRequired {
  optDelimiter : string;
  optStrict : bool
}.

(** The options object the external decoder receives: the two
    properties its interface names, each present or absent. *)
Record DecodeOptions : Type := mkDecodeOptions {
  decDelimiter : option string;
  decStrict : option bool
}.

Definition orElse {A : Type} (o : option A) (d : A) : A :=
  match o with Some a => a | None => d end.

Definition extractionMessage : string :=
  "Could not extract TOON content from response. "
  ++ "Expected response to contain TOON-formatted data in a code block or as plain text.".

(** [error instanceof Error ? error.message : String(error)] *)
Definition errorText (error : Thrown) : string :=
  match error with
  | JsError msg => msg
  | ZodError msg _ => msg
  | NonError text => text
  end.

Definition decodeMessage (error : Thrown) (toonContent : string) : string :=
  "Failed to decode TOON format: " ++ errorText error ++ nl ++ nl
  ++ "TOON content:" ++ nl ++ toonContent.

Definition segmentText (seg : PathSegment) : string :=
  match seg with
  | Key name => name
  | Index i => natToString i
  end.

Definition issueLine (issue : ZodIssue) : string :=
  "  - " ++ join "." (map segmentText (path issue)) ++ ": " ++ message issue.

Definition validationMessage (issues : list ZodIssue) (json : string)
  : string :=
  "Failed to validate TOON output against schema:" ++ nl
  ++ join nl (map issueLine issues) ++ nl ++ nl
  ++ "Decoded data: " ++ json.

Section Pipeline.

(** The external collaborators: the decoded value tree and the typed
    result, the schema with its validator [schema.parse], the decoder
    [decode], and [JSON.stringify(_, null, 2)]. *)
Variables Value T Schema : Type.
Variable decode : string -> DecodeOptions -> Completion Value.
Variable schemaParse : Schema -> Value -> Completion T.
Variable stringify : Value -> string.

Record ToonOutputParser : Type := mkParser {
  schema : Schema;
  options : RequiredOptions
}.

(** The constructor. *)
Definition new (schema : Schema) (options : ToonOutputParserOptions)
  : ToonOutputParser :=
  mkParser schema
    (mkRequired (orElse (delimiter options) ",")
                (orElse (strict options) true)).

(** The object literal passed to [decode]. *)
Definition decodeOptions (this : ToonOutputParser) : DecodeOptions :=
  mkDecodeOptions None (Some (optStrict (options this))).

(** The validation step of [parse] with its [catch]. *)
Definition validate (this : ToonOutputParser) (decoded : Value)
  : Completion T :=
  match schemaParse (schema this) decoded with
  | Normal v => Normal v
  | Throw (ZodError _ issues) =>
      Throw (JsError (validationMessage issues (stringify decoded)))
  | Throw error => Throw error
  end.

(** [parse] *)
Definition parse (this : ToonOutputParser) (text : string) : Completion T :=
  match extractToonContent text with
  | Some (String c r) =>
      let toonContent := String c r in
      match decode toonContent (decodeOptions this) with
      | Throw error => Throw (JsError (decodeMessage error toonContent))
      | Normal decoded => validate this decoded
      end
  | _ => Throw (JsError extractionMessage)
  end.

End Pipeline.

Arguments mkParser {Schema} schema options.
Arguments schema {Schema} t.
Arguments options {Schema} t.
Arguments new {Schema} schema options.
Arguments decodeOptions {Schema} this.
Arguments validate {Value T Schema} schemaParse stringify this decoded.
Arguments parse {Value T Schema} decode schemaParse stringify this text.

(** The three failures of [parse], told apart by the message of the
    [Error] it throws. *)
Inductive FailureKind : Type :=
| ExtractionFailure
| DecodeFailure
| ValidationFailure.

Definition failureKind (e : Thrown) : option FailureKind :=
  match e with
  | JsError msg =>
      if startsWith "Could not extract TOON content" msg
      then Some ExtractionFailure
      else if startsWith "Failed to decode TOON format" msg
      then Some DecodeFailure
      else if startsWith "Failed to validate TOON output" msg
      then Some ValidationFailure
      else None
  | _ => None
  end.

End Parser.

(* ================================================================= *)
(** ** Auxiliary definitions for the statements *)

(** The three transparent modifiers, and a stack of them put around a
    schema (outermost first). *)
Inductive Modifier : Type := Optional | Nullable | Default.

Definition applyModifier (m : Modifier) (schema : ZodType) : ZodType :=
  match m with
  | Optional => ZodOptional schema
  | Nullable => ZodNullable schema
  | Default => ZodDefault schema
  end.

Definition wrapAll (mods : list Modifier) (schema : ZodType) : ZodType :=
  fold_right applyModifier schema mods.

(** One iteration of the unwrapping loop of [getSchemaShape], and the
    number of iterations the loop makes. *)
Definition loopBody (unwrapped : ZodType) : ZodType :=
  match unwrapped with
  | ZodOptional inner | ZodNullable inner | ZodDefault inner => inner
  | other => other
  end.

Fixpoint modifierDepth (schema : ZodType) : nat :=
  match schema with
  | ZodOptional inner | ZodNullable inner | ZodDefault inner =>
      S (modifierDepth inner)
  | _ => 0
  end.

(** The code units of a string. *)
Definition units (s : string) : list ascii := list_ascii_of_string s.

(** The quoting condition as the specification words it: the delimiter
    (a comma), a colon, white space or a quote character. *)
Definition specQuoteClass (c : ascii) : bool :=
  Ascii.eqb c ","%char || Ascii.eqb c ":"%char || Js.isWhiteSpace c
  || Ascii.eqb c Js.quote.

(** The literal [getExampleValue] picks from a non-empty value list. *)
Definition pickedLiteral (v0 : string) (rest : list string) (alternate : bool)
  : string :=
  match alternate, rest with
  | true, v1 :: _ => v1
  | _, _ => v0
  end.


(** The lines one field of an object contributes to the example, that
    is, one iteration of the loop over [Object.entries(shape.fields)] in
    [generateToonExample]. *)
Definition fieldLines (indent : nat) (kv : string * SchemaShape) : list string :=
  let spaces := Js.repeat "  " indent in
  match snd kv with
  | SArray _ =>
      [spaces ++ fst kv ++ Synth.generateToonExample (snd kv) indent]
  | SObject _ =>
      [spaces ++ fst kv ++ ":"; Synth.generateToonExample (snd kv) (indent + 1)]
  | _ => [spaces ++ fst kv ++ ": " ++ Synth.getExampleValue (snd kv) false]
  end.

(** A piece of text that follows a complete line: nothing, or a line
    feed and more text. *)
Definition lineEnd (post : string) : Prop :=
  post = EmptyString \/ exists r, post = Js.nl ++ r.

(** The path of a field below a prefix: [prefix ? `${prefix}.${key}` : key]. *)
Definition fieldPath (prefix key : string) : string :=
  if Js.truthy prefix then prefix ++ "." ++ key else key.

(** The records one field of an object contributes: one iteration of the
    loop of [collectEnumConstraints]. *)
Definition fieldConstraints (prefix : string) (kv : string * SchemaShape)
  : list EnumConstraint :=
  match snd kv with
  | SEnum (Some vs) => [mkConstraint (fieldPath prefix (fst kv)) vs]
  | SObject _ =>
      Synth.collectEnumConstraints (snd kv) (fieldPath prefix (fst kv))
  | SArray element =>
      match element with
      | SEnum (Some vs) =>
          [mkConstraint (fieldPath prefix (fst kv) ++ "[]") vs]
      | SObject _ =>
          Synth.collectEnumConstraints element
            (fieldPath prefix (fst kv) ++ "[]")
      | _ => []
      end
  | _ => []
  end.

(** [Collected shape prefix c]: the enums the collector is written to
    reach.  From an object it looks at each field: an enum field, an array
    field whose element is an enum, and, recursively, an object field and
    an array field whose element is an object. *)
Inductive Collected : SchemaShape -> string -> EnumConstraint -> Prop :=
| collected_enum fields prefix key vs :
    In (key, SEnum (Some vs)) fields ->
    Collected (SObject fields) prefix (mkConstraint (fieldPath prefix key) vs)
| collected_object fields prefix key inner c :
    In (key, SObject inner) fields ->
    Collected (SObject inner) (fieldPath prefix key) c ->
    Collected (SObject fields) prefix c
| collected_array_enum fields prefix key vs :
    In (key, SArray (SEnum (Some vs))) fields ->
    Collected (SObject fields) prefix
              (mkConstraint (fieldPath prefix key ++ "[]") vs)
| collected_array_object fields prefix key inner c :
    In (key, SArray (SObject inner)) fields ->
    Collected (SObject inner) (fieldPath prefix key ++ "[]") c ->
    Collected (SObject fields) prefix c.

(** [EnumNode vs shape]: an enum node with the literals [vs] occurs
    somewhere in the tree [shape]. *)
Inductive EnumNode (vs : list string) : SchemaShape -> Prop :=
| enum_root : EnumNode vs (SEnum (Some vs))
| enum_in_field fields key s :
    In (key, s) fields -> EnumNode vs s -> EnumNode vs (SObject fields)
| enum_in_element element :
    EnumNode vs element -> EnumNode vs (SArray element).

(** The three fences the extractor recognizes. *)
Inductive FenceTag : Type := TagToon | TagYaml | Untagged.

Definition tagText (tag : FenceTag) : string :=
  match tag with
  | TagToon => "toon"
  | TagYaml => "yaml"
  | Untagged => EmptyString
  end.

(** The text [t] wrapped in a fenced block: the opening fence with its
    tag, a line feed, [t], a line feed, the closing fence. *)
Definition fenced (tag : FenceTag) (t : string) : string :=
  Parser.fence ++ tagText tag ++ Js.nl ++ t ++ Parser.closing.

Fixpoint allWhiteSpace (s : string) : bool :=
  match s with
  | EmptyString => true
  | String c s' => Js.isWhiteSpace c && allWhiteSpace s'
  end.

(** What the search for [\s*] and the line feed leaves of a fence-free
    body [t] that is followed by the closing fence: the part of [t] after
    the last line feed of its leading white space, if there is one. *)
Fixpoint leadingRest (t : string) : option string :=
  match t with
  | EmptyString => None
  | String c t' =>
      if Js.isWhiteSpace c then
        match leadingRest t' with
        | Some g => Some g
        | None => if Ascii.eqb c Js.LF then Some t' else None
        end
      else None
  end.

(** The capture (group 1) for a fenced, fence-free body [t]. *)
Definition captured (t : string) : string :=
  match leadingRest t with Some g => g | None => t end.

(** *** Sample collaborators

    Concrete decoders and validators, used to instantiate the statements
    about [parse]. *)

(** A small decoded value tree. *)
Inductive Tree : Type :=
| TString (s : string)
| TNumber (n : nat)
| TObject (entries : list (string * Tree)).

(** A decoder that reports what it was called with. *)
Definition spyDecode (text : string) (opts : Parser.DecodeOptions)
  : Parser.Completion (string * Parser.DecodeOptions) :=
  Parser.Normal (text, opts).

(** A validator that accepts every value. *)
Definition acceptAll {V : Type} (_ : unit) (v : V) : Parser.Completion V :=
  Parser.Normal v.

(** A decoder that reads the one line [age: not-a-number] as an object
    with a string scalar, and rejects every other text. *)
Definition ageDecode (text : string) (_ : Parser.DecodeOptions)
  : Parser.Completion Tree :=
  if String.eqb text "age: not-a-number"
  then Parser.Normal (TObject [("age", TString "not-a-number")])
  else Parser.Throw (Parser.JsError "syntax error").

(** A validator for an object with a numeric [age]. *)
Definition ageParse (_ : unit) (v : Tree) : Parser.Completion nat :=
  match v with
  | TObject [(_, TNumber n)] => Parser.Normal n
  | _ =>
      Parser.Throw
        (Parser.ZodError "invalid"
           [Parser.mkIssue [Parser.Key "age"]
                           "Expected number, received string"])
  end.

(** A validator that fails with a plain [TypeError]-like error. *)
Definition brokenParse (_ : unit) (v : Tree) : Parser.Completion nat :=
  Parser.Throw (Parser.JsError "validator crashed").

Definition showTree (v : Tree) : string := "<tree>".

(** *** The external decoder and validator

    The decoder of the notation and the validator of the schema library
    are not part of this repository.  The definitions below model them
    from the specification, as far as its words and the tests of the
    repository fix their behaviour. *)

(** Modelled from the spec: the decoded value tree of the external
    decoder, nested mappings, sequences and scalars. *)
Inductive DecodedValue : Type :=
| VString (s : string)
| VNumber (n : nat)
| VBoolean (b : bool)
| VObject (entries : list (string * DecodedValue))
| VArray (items : list DecodedValue).

Definition isDigit (c : ascii) : bool :=
  Nat.leb 48 (nat_of_ascii c) && Nat.leb (nat_of_ascii c) 57.

Fixpoint digitsToNat (acc : nat) (s : string) : option nat :=
  match s with
  | EmptyString => Some acc
  | String c s' =>
      if isDigit c
      then digitsToNat (10 * acc + (nat_of_ascii c - 48)) s'
      else None
  end.

(** Modelled from the spec: how the external decoder reads a scalar
    token.  The decimal literal [30] is the number 30; [true] and [false]
    are the booleans; any other token, such as [John] or [not-a-number],
    is a string scalar. *)
Definition decodeScalar (token : string) : DecodedValue :=
  match token with
  | EmptyString => VString token
  | _ =>
      match digitsToNat 0 token with
      | Some n => VNumber n
      | None =>
          if String.eqb token "true" then VBoolean true
          else if String.eqb token "false" then VBoolean false
          else VString token
      end
  end.

(** The lines of a text. *)
Fixpoint splitLines (s : string) : list string :=
  match s with
  | EmptyString => [EmptyString]
  | String c s' =>
      if Ascii.eqb c Js.LF then EmptyString :: splitLines s'
      else match splitLines s' with
           | [] => [String c EmptyString]
           | l :: ls => String c l :: ls
           end
  end.

(** A line [key: token], split at the first colon followed by a space. *)
Fixpoint splitField (line : string) : option (string * string) :=
  match Js.stripPrefix ": " line with
  | Some token => Some (EmptyString, token)
  | None =>
      match line with
      | EmptyString => None
      | String c line' =>
          match splitField line' with
          | Some (key, token) => Some (String c key, token)
          | None => None
          end
      end
  end.

Fixpoint decodeFields (lines : list string)
  : option (list (string * DecodedValue)) :=
  match lines with
  | [] => Some []
  | line :: rest =>
      match splitField line, decodeFields rest with
      | Some (key, token), Some entries =>
          Some ((key, decodeScalar token) :: entries)
      | _, _ => None
      end
  end.

(** Modelled from the spec: the external decoder
    [decode(text, {delimiter, strict})], on the flat texts that the
    properties of the specification and the tests of the parser use.
    Lines [key: token] decode to a mapping from each key to the scalar of
    its token; a single line without a key decodes to a scalar; any other
    text is malformed for this model and raises.  Indentation-based
    nesting and tabular arrays, whose grammar the specification leaves to
    the decoder, are not modelled; the options play no part on flat
    text. *)
Definition specDecode (text : string) (_ : Parser.DecodeOptions)
  : Parser.Completion DecodedValue :=
  match decodeFields (splitLines text) with
  | Some entries => Parser.Normal (VObject entries)
  | None =>
      match splitLines text with
      | [line] => Parser.Normal (decodeScalar line)
      | _ => Parser.Throw (Parser.JsError "Invalid TOON")
      end
  end.

Definition kindName (v : DecodedValue) : string :=
  match v with
  | VString _ => "string"
  | VNumber _ => "number"
  | VBoolean _ => "boolean"
  | VObject _ => "object"
  | VArray _ => "array"
  end.

(** Modelled from the spec: a violation, the path of the field and a
    human-readable reason. *)
Definition mismatch (path : list Parser.PathSegment) (expected : string)
           (v : DecodedValue) : list Parser.ZodIssue :=
  [Parser.mkIssue path
     ("Expected " ++ expected ++ ", received " ++ kindName v)].

Fixpoint lookupEntry (key : string) (entries : list (string * DecodedValue))
  : option DecodedValue :=
  match entries with
  | [] => None
  | (k, v) :: rest => if String.eqb k key then Some v else lookupEntry key rest
  end.

(** A field that may be absent: an optional or defaulted one. *)
Definition mayBeAbsent (schema : ZodType) : bool :=
  match schema with
  | ZodOptional _ | ZodDefault _ => true
  | _ => false
  end.

(** Modelled from the spec: the violations of a value tree against a
    schema, each with the path of the field.  A string, number or boolean
    schema wants a scalar of its kind, an enum one of its literals, an
    object a mapping with every declared field (an optional or defaulted
    one may be absent), an array a sequence of valid elements; the
    modifiers are transparent.  For the date schema and the unrecognized
    kinds the specification does not say what is valid, and the model
    reports nothing. *)
Fixpoint issuesAt (path : list Parser.PathSegment) (schema : ZodType)
         (v : DecodedValue) : list Parser.ZodIssue :=
  match schema with
  | ZodOptional inner | ZodNullable inner | ZodDefault inner =>
      issuesAt path inner v
  | ZodString =>
      match v with VString _ => [] | _ => mismatch path "string" v end
  | ZodNumber =>
      match v with VNumber _ => [] | _ => mismatch path "number" v end
  | ZodBoolean =>
      match v with VBoolean _ => [] | _ => mismatch path "boolean" v end
  | ZodEnum literals =>
      match v with
      | VString s =>
          if existsb (String.eqb s) literals then []
          else [Parser.mkIssue path "Invalid enum value"]
      | _ => mismatch path "string" v
      end
  | ZodObject shape =>
      match v with
      | VObject entries =>
          (fix each (l : list (string * ZodType)) : list Parser.ZodIssue :=
             match l with
             | [] => []
             | (key, fieldSchema) :: rest =>
                 List.app
                   match lookupEntry key entries with
                   | Some fieldValue =>
                       issuesAt (List.app path [Parser.Key key])
                                fieldSchema fieldValue
                   | None =>
                       if mayBeAbsent fieldSchema then []
                       else [Parser.mkIssue (List.app path [Parser.Key key])
                                            "Required"]
                   end
                   (each rest)
             end) shape
      | _ => mismatch path "object" v
      end
  | ZodArray type =>
      match v with
      | VArray items =>
          (fix each (i : nat) (l : list DecodedValue) : list Parser.ZodIssue :=
             match l with
             | [] => []
             | item :: rest =>
                 List.app
                   (issuesAt (List.app path [Parser.Index i]) type item)
                   (each (S i) rest)
             end) 0 items
      | _ => mismatch path "array" v
      end
  | ZodDate | ZodOther _ => []
  end.

(** Modelled from the spec: the validator [schema.parse] of the external
    schema library.  A value tree without violations is returned
    unchanged; otherwise the validator raises its failure signal with the
    violations. *)
Definition specSchemaParse (schema : ZodType) (v : DecodedValue)
  : Parser.Completion DecodedValue :=
  match issuesAt [] schema v with
  | [] => Parser.Normal v
  | issues => Parser.Throw (Parser.ZodError "Validation failed" issues)
  end.

(** The schema [{age: number}]. *)
Definition ageSchema : ZodType := ZodObject [("age", ZodNumber)].

(** *** Further definitions for the statements *)

(** [FieldAt shape depth key s]: the object [shape] has, [depth] nested
    objects down, a field [key] of shape [s]. *)
Inductive FieldAt : SchemaShape -> nat -> string -> SchemaShape -> Prop :=
| field_here fields key s :
    In (key, s) fields -> FieldAt (SObject fields) 0 key s
| field_below fields k inner depth key s :
    In (k, SObject inner) fields ->
    FieldAt (SObject inner) depth key s ->
    FieldAt (SObject fields) (S depth) key s.

(** A piece of text that ends where a line starts: nothing, or text that
    ends in a line feed. *)
Definition lineStart (pre : string) : Prop :=
  pre = EmptyString \/ exists r, pre = r ++ Js.nl.

Definition isObjectShape (s : SchemaShape) : bool :=
  match s with SObject _ => true | _ => false end.

Definition isArrayShape (s : SchemaShape) : bool :=
  match s with SArray _ => true | _ => false end.

(** The text of the instructions before the example: rules, constraints
    and the opening of the fenced block. *)
Definition instructionsHead (schema : ZodType) : string :=
  Synth.rulesText
  ++ Synth.constraintsText
       (Synth.collectEnumConstraints (getSchemaShape schema) EmptyString)
  ++ Js.nl ++ Js.nl ++ "Expected structure:" ++ Js.nl
  ++ "```toon" ++ Js.nl.

(** A schema with every optional, nullable and default modifier removed
    and every unrecognized node replaced by a string schema, at all
    depths. *)
Fixpoint plainSchema (schema : ZodType) : ZodType :=
  match schema with
  | ZodOptional inner | ZodNullable inner | ZodDefault inner =>
      plainSchema inner
  | ZodObject shape =>
      ZodObject
        ((fix entries (l : list (string * ZodType)) :=
            match l with
            | [] => []
            | (key, value) :: rest => (key, plainSchema value) :: entries rest
            end) shape)
  | ZodArray type => ZodArray (plainSchema type)
  | ZodOther _ => ZodString
  | other => other
  end.

(** No modifier and no unrecognized node occurs in the schema. *)
Fixpoint isPlain (schema : ZodType) : bool :=
  match schema with
  | ZodOptional _ | ZodNullable _ | ZodDefault _ | ZodOther _ => false
  | ZodObject shape =>
      (fix all (l : list (string * ZodType)) :=
         match l with
         | [] => true
         | (_, value) :: rest => isPlain value && all rest
         end) shape
  | ZodArray type => isPlain type
  | _ => true
  end.

(** Some code unit of [s] is a backtick. *)
Definition hasBacktick (s : string) : bool :=
  Js.testClass (Ascii.eqb Js.backtick) s.

(** The text [t] in a fenced block whose opening fence is followed by an
    arbitrary tag text. *)
Definition fencedWith (tag : string) (t : string) : string :=
  Parser.fence ++ tag ++ Js.nl ++ t ++ Parser.closing.

(** A tag the expression does not recognize: it starts with a character
    that is neither white space nor a backtick, and does not start with
    [toon] or [yaml]. *)
Definition foreignTag (tag : string) : bool :=
  match tag with
  | EmptyString => false
  | String c _ =>
      negb (Js.isWhiteSpace c) && negb (Ascii.eqb Js.backtick c)
      && negb (Js.startsWith "toon" tag) && negb (Js.startsWith "yaml" tag)
  end.

(** One iteration of the loop over the fields of an object in the
    [generateToonExample] of the revision with the [N] placeholder. *)
Definition legacyFieldLines (indent : nat) (kv : string * SchemaShape)
  : list string :=
  let spaces := Js.repeat "  " indent in
  match snd kv with
  | SArray _ =>
      [spaces ++ fst kv ++ Legacy.generateToonExample (snd kv) indent]
  | SObject _ =>
      [spaces ++ fst kv ++ ":"; Legacy.generateToonExample (snd kv) (indent + 1)]
  | _ => [spaces ++ fst kv ++ ": " ++ Legacy.getExampleValue (snd kv) false]
  end.

(** The shape has no array and no enum at any depth. *)
Fixpoint noArrayNoEnum (s : SchemaShape) : bool :=
  match s with
  | SObject fields =>
      (fix all (l : list (string * SchemaShape)) :=
         match l with
         | [] => true
         | (_, fieldShape) :: rest => noArrayNoEnum fieldShape && all rest
         end) fields
  | SArray _ | SEnum _ => false
  | _ => true
  end.
(* ================================================================= *)
(** ** Facts about strings *)

Section StringFacts.
Import Js.

Lemma str_app_assoc (a b c : string) : (a ++ b) ++ c = a ++ (b ++ c).
Proof. induction a as [|x a IH]; simpl; [reflexivity | now rewrite IH]. Qed.

Lemma str_app_nil_r (a : string) : a ++ EmptyString = a.
Proof. induction a as [|x a IH]; simpl; [reflexivity | now rewrite IH]. Qed.

Lemma testClass_spec (cls : ascii -> bool) (s : string) :
  testClass cls s = true <-> exists c, In c (units s) /\ cls c = true.
Proof.
  induction s as [|x s IH]; simpl.
  - split; [discriminate | intros (c & [] & _)].
  - rewrite orb_true_iff, IH. split.
    + intros [Hx | (c & Hin & Hc)]; [exists x | exists c]; auto.
    + intros (c & [<- | Hin] & Hc); [now left | right; now exists c].
Qed.

End StringFacts.

(* ================================================================= *)
(** ** The schema introspector *)

Lemma unwrap_not_modifier (schema : ZodType) :
  isModifier (unwrap schema) = false.
Proof. induction schema; simpl; auto. Qed.

Lemma getSchemaShape_unwrap (schema : ZodType) :
  getSchemaShape schema = getSchemaShape (unwrap schema).
Proof. induction schema; simpl; auto. Qed.

Lemma loop_reaches_unwrap (schema : ZodType) :
  Nat.iter (modifierDepth schema) loopBody schema = unwrap schema.
Proof.
  induction schema; simpl; try reflexivity;
    rewrite <- IHschema; clear IHschema;
    match goal with
    | |- context [modifierDepth ?i] =>
        generalize (modifierDepth i); intro n; induction n as [|n IHn];
        simpl; [reflexivity | now rewrite IHn]
    end.
Qed.

Lemma getSchemaShape_wrapAll (mods : list Modifier) (schema : ZodType) :
  getSchemaShape (wrapAll mods schema) = getSchemaShape schema.
Proof.
  induction mods as [|m mods IH]; simpl; [reflexivity|].
  destruct m; simpl; exact IH.
Qed.

(** C6. The introspector is a total function on schemas: its unwrapping
    loop stops after as many iterations as there are stacked modifiers, on a
    node that is no modifier, and the shape is the shape of that node; any
    stack of optional, nullable and default modifiers is transparent, so
    optional(nullable(string)) has the bare string shape; and every
    unrecognized node kind has the string shape. *)
Theorem getSchemaShape_total :
  (forall schema,
      Nat.iter (modifierDepth schema) loopBody schema = unwrap schema
      /\ isModifier (unwrap schema) = false
      /\ getSchemaShape schema = getSchemaShape (unwrap schema))
  /\ (forall mods schema,
         getSchemaShape (wrapAll mods schema) = getSchemaShape schema)
  /\ getSchemaShape (ZodOptional (ZodNullable ZodString)) = SString
  /\ (forall typeName, getSchemaShape (ZodOther typeName) = SString)
  /\ (forall schema, exists shape, getSchemaShape schema = shape).
Proof.
  repeat split.
  - apply loop_reaches_unwrap.
  - apply unwrap_not_modifier.
  - apply getSchemaShape_unwrap.
  - apply getSchemaShape_wrapAll.
  - intros schema. now exists (getSchemaShape schema).
Qed.

(* ================================================================= *)
(** ** Example values *)

Lemma quoteClass_spec (c : ascii) :
  Synth.quoteClass c = true <->
  c = ","%char \/ c = ":"%char \/ Js.isWhiteSpace c = true
  \/ c = Js.quote \/ c = Js.backslash.
Proof.
  unfold Synth.quoteClass.
  rewrite !orb_true_iff, !Ascii.eqb_eq. tauto.
Qed.

(** C7, as amended.  For a non-empty value list the example generator
    picks the first literal, or the second when [alternate] is set and a
    second exists.  In the revision with field constraints it wraps the
    literal in quote characters exactly when the literal contains a
    comma, a colon, a white-space character, a quote character or a
    backslash; in the revision with the placeholder it wraps every
    literal in quote characters. *)
Theorem enum_example_value (v0 : string) (rest : list string) (alternate : bool) :
  let value := pickedLiteral v0 rest alternate in
  pickedLiteral v0 rest false = v0
  /\ pickedLiteral v0 [] true = v0
  /\ (forall v1 more, pickedLiteral v0 (v1 :: more) true = v1)
  /\ Synth.getExampleValue (SEnum (Some (v0 :: rest))) alternate
     = (if Synth.needsQuotes value then Js.dq ++ value ++ Js.dq else value)
  /\ (Synth.needsQuotes value = true <->
      exists c, In c (units value)
                /\ (c = ","%char \/ c = ":"%char \/ Js.isWhiteSpace c = true
                    \/ c = Js.quote \/ c = Js.backslash))
  /\ Legacy.getExampleValue (SEnum (Some (v0 :: rest))) alternate
     = Js.dq ++ value ++ Js.dq.
Proof.
  intros value.
  split; [reflexivity|]. split; [reflexivity|]. split; [reflexivity|].
  split; [reflexivity|]. split.
  - split.
    + intros H. apply testClass_spec in H. destruct H as (c & Hin & Hc).
      exists c. split; [exact Hin | now apply quoteClass_spec].
    + intros (c & Hin & Hc). apply testClass_spec. exists c.
      split; [exact Hin | now apply quoteClass_spec].
  - subst value. destruct alternate, rest; reflexivity.
Qed.

(** C7, the claim as stated fails in both revisions.  With field
    constraints, a literal with a backslash and none of the four listed
    characters is wrapped in quotes.  With the placeholder, a literal
    without any special character is wrapped in quotes. *)
Lemma enum_backslash_quoted :
  let v := String "a" (String Js.backslash "b") in
  Js.testClass specQuoteClass v = false
  /\ Synth.getExampleValue (SEnum (Some [v])) false = Js.dq ++ v ++ Js.dq
  /\ Synth.getExampleValue (SEnum (Some [v])) false <> v
  /\ Js.testClass specQuoteClass "admin" = false
  /\ Legacy.getExampleValue (SEnum (Some ["admin"])) false
     = Js.dq ++ "admin" ++ Js.dq
  /\ Legacy.getExampleValue (SEnum (Some ["admin"])) false <> "admin".
Proof.
  cbv zeta.
  split; [reflexivity|]. split; [reflexivity|].
  split; [intro H; discriminate H|].
  split; [reflexivity|]. split; [reflexivity|].
  intro H. discriminate H.
Qed.

(* ================================================================= *)
(** ** The synthesized example *)

Section ExampleFacts.
Import Js.

Lemma generateToonExample_object fields indent :
  Synth.generateToonExample (SObject fields) indent
  = join nl (flat_map (fieldLines indent) fields).
Proof.
  simpl. f_equal.
  induction fields as [|[key fieldShape] rest IH]; [reflexivity|].
  rewrite IH. destruct fieldShape; reflexivity.
Qed.

Lemma lineEnd_app post q :
  lineEnd post -> lineEnd q -> lineEnd (post ++ q).
Proof.
  intros [-> | (r & ->)] Hq; [exact Hq|].
  right. exists (r ++ q). now rewrite str_app_assoc.
Qed.

End ExampleFacts.

(* ================================================================= *)
(** ** Enum constraints *)

(** Induction on shapes that reaches the fields of an object. *)
Section ShapeInduction.
Variable P : SchemaShape -> Prop.
Hypothesis HObject :
  forall fields, Forall (fun kv => P (snd kv)) fields -> P (SObject fields).
Hypothesis HArray : forall element, P element -> P (SArray element).
Hypothesis HString : P SString.
Hypothesis HNumber : P SNumber.
Hypothesis HBoolean : P SBoolean.
Hypothesis HDate : P SDate.
Hypothesis HEnum : forall vs, P (SEnum vs).

Fixpoint shape_nested_ind (s : SchemaShape) : P s :=
  match s with
  | SObject fields =>
      HObject fields
        ((fix all (l : list (string * SchemaShape))
           : Forall (fun kv => P (snd kv)) l :=
            match l with
            | [] => Forall_nil _
            | (k, v) :: rest =>
                Forall_cons (k, v) (shape_nested_ind v) (all rest)
            end) fields)
  | SArray element => HArray element (shape_nested_ind element)
  | SString => HString
  | SNumber => HNumber
  | SBoolean => HBoolean
  | SDate => HDate
  | SEnum vs => HEnum vs
  end.
End ShapeInduction.

Lemma collectEnumConstraints_object fields prefix :
  Synth.collectEnumConstraints (SObject fields) prefix
  = flat_map (fieldConstraints prefix) fields.
Proof.
  simpl. induction fields as [|[key fieldShape] rest IH]; [reflexivity|].
  rewrite IH. reflexivity.
Qed.

Lemma collected_complete shape prefix c :
  Collected shape prefix c -> In c (Synth.collectEnumConstraints shape prefix).
Proof.
  induction 1 as [fields prefix key vs Hin
                 | fields prefix key inner c Hin _ IH
                 | fields prefix key vs Hin
                 | fields prefix key inner c Hin _ IH];
    rewrite collectEnumConstraints_object; apply in_flat_map;
    eexists; (split; [exact Hin|]); cbn; auto.
Qed.

Lemma collected_sound shape :
  (forall prefix c,
      In c (Synth.collectEnumConstraints shape prefix) ->
      Collected shape prefix c)
  /\ (forall element, shape = SArray element ->
      forall prefix c,
        In c (Synth.collectEnumConstraints element prefix) ->
        Collected element prefix c).
Proof.
  induction shape as [fields IH | element IH | | | | | vs]
    using shape_nested_ind;
    split; try (intros prefix c Hc; now destruct Hc);
    try (intros element' Heq; discriminate Heq).
  - intros prefix c Hc. rewrite collectEnumConstraints_object in Hc.
    apply in_flat_map in Hc. destruct Hc as ([key s] & Hin & Hc).
    rewrite Forall_forall in IH. specialize (IH _ Hin). cbn [snd] in IH.
    destruct IH as (IHs & IHe). unfold fieldConstraints in Hc.
    cbn [fst snd] in Hc.
    destruct s as [inner | element | | | | | [vs|]]; try contradiction.
    + eapply collected_object; [exact Hin | now apply IHs].
    + destruct element as [inner | | | | | | [vs|]]; try contradiction.
      * eapply collected_array_object; [exact Hin|].
        now apply (IHe _ eq_refl).
      * destruct Hc as [<- | []]. now apply collected_array_enum.
    + destruct Hc as [<- | []]. now apply collected_enum.
  - intros element' Heq. injection Heq as <-. exact (proj1 IH).
Qed.

Lemma collectEnumConstraints_app l1 l2 prefix :
  Synth.collectEnumConstraints (SObject (List.app l1 l2)) prefix
  = List.app (Synth.collectEnumConstraints (SObject l1) prefix)
             (Synth.collectEnumConstraints (SObject l2) prefix).
Proof. rewrite !collectEnumConstraints_object. apply flat_map_app. Qed.

(** C8, as amended.  The collector records exactly the enums it reaches
    from a root object through object fields and through array fields with
    an object element: an enum that is a field of such an object, or the
    element of an array field of such an object.  The records come in
    field order, one for each such enum: a shape that is no object gives
    none, and an object gives the records of its first field followed by
    those of the remaining fields, where an enum field gives one record,
    an array field with an enum element one record, and an object field
    or an array field with an object element the records of that object.
    The path of a field is [prefix.key] (the bare key below the empty
    prefix), followed by [[]] for an array field.  The instructions put
    the records, in this order, one line
    [- <path> must be one of: v1, v2, ...] each, into a Field Constraints
    section right after the rules, and that section is there exactly when
    a record was collected. *)
Theorem enum_constraints_collected :
  (forall shape prefix c,
      In c (Synth.collectEnumConstraints shape prefix)
      <-> Collected shape prefix c)
  /\ (forall shape prefix,
         match shape with
         | SObject _ => True
         | _ => Synth.collectEnumConstraints shape prefix = []
         end)
  /\ (forall prefix, Synth.collectEnumConstraints (SObject []) prefix = [])
  /\ (forall key s rest prefix,
         Synth.collectEnumConstraints (SObject ((key, s) :: rest)) prefix
         = List.app
             match s with
             | SEnum (Some vs) => [mkConstraint (fieldPath prefix key) vs]
             | SObject inner =>
                 Synth.collectEnumConstraints (SObject inner)
                   (fieldPath prefix key)
             | SArray (SEnum (Some vs)) =>
                 [mkConstraint (fieldPath prefix key ++ "[]") vs]
             | SArray (SObject inner) =>
                 Synth.collectEnumConstraints (SObject inner)
                   (fieldPath prefix key ++ "[]")
             | _ => []
             end
             (Synth.collectEnumConstraints (SObject rest) prefix))
  /\ (forall l1 l2 prefix,
         Synth.collectEnumConstraints (SObject (List.app l1 l2)) prefix
         = List.app (Synth.collectEnumConstraints (SObject l1) prefix)
                    (Synth.collectEnumConstraints (SObject l2) prefix))
  /\ (forall schema,
         Synth.zodSchemaToToonInstructions schema
         = Synth.rulesText
           ++ Synth.constraintsText
                (Synth.collectEnumConstraints (getSchemaShape schema)
                   EmptyString)
           ++ Js.nl ++ Js.nl ++ "Expected structure:" ++ Js.nl
           ++ "```toon" ++ Js.nl
           ++ Synth.generateToonExample (getSchemaShape schema) 0
           ++ Synth.closingText)
  /\ (forall cs, Synth.constraintsText cs = EmptyString <-> cs = [])
  /\ (forall c cs,
         Synth.constraintsText (c :: cs)
         = Js.nl ++ Js.nl ++ "Field Constraints:" ++ Js.nl
           ++ Js.join Js.nl (map Synth.constraintLine (c :: cs)))
  /\ (forall c,
         Synth.constraintLine c
         = "- " ++ field c ++ " must be one of: "
           ++ Js.join ", " (values c)).
Proof.
  split; [| split; [| split; [| split; [| split; [| split;
    [| split; [| split]]]]]]].
  - intros shape prefix c. split.
    + apply collected_sound.
    + apply collected_complete.
  - intros shape prefix. destruct shape; [exact I | reflexivity ..].
  - reflexivity.
  - intros key s rest prefix.
    destruct s as [inner | [inner | | | | | | [vs|]] | | | | | [vs|]];
      reflexivity.
  - apply collectEnumConstraints_app.
  - reflexivity.
  - intros [|c cs]; split; intro H; try reflexivity; discriminate H.
  - reflexivity.
  - reflexivity.
Qed.

(** C8, the claim as stated fails: an enum below an array of arrays, and
    an enum that is itself the root, are enum nodes of the tree that the
    collector does not record; the instructions then have no Field
    Constraints section. *)
Lemma enum_nodes_not_collected :
  let vs := ["a"; "b"] in
  let nested := SObject [("m", SArray (SArray (SEnum (Some vs))))] in
  let root := SEnum (Some vs) in
  EnumNode vs nested
  /\ Synth.collectEnumConstraints nested EmptyString = []
  /\ EnumNode vs root
  /\ Synth.collectEnumConstraints root EmptyString = []
  /\ Synth.constraintsText
       (Synth.collectEnumConstraints nested EmptyString) = EmptyString.
Proof.
  cbv zeta. repeat split.
  - eapply enum_in_field; [left; reflexivity|].
    apply enum_in_element, enum_in_element, enum_root.
  - apply enum_root.
Qed.

(* ================================================================= *)
(** ** The response extractor *)

(** Tests on characters are left folded unless the character is known. *)
#[local] Arguments Ascii.eqb !a !b.
#[local] Arguments Js.isWhiteSpace !c.

Section ExtractorFacts.
Import Js Parser.

Lemma includes_cons p c s :
  includes p (String c s) = false ->
  startsWith p (String c s) = false /\ includes p s = false.
Proof. simpl. intros H. now apply orb_false_iff in H. Qed.

Lemma includes_head p s : includes p s = false -> startsWith p s = false.
Proof. destruct s; simpl; intros H; now apply orb_false_iff in H. Qed.

(** No fence starts where a fence-free text meets the closing line feed. *)
Lemma no_fence_across x :
  startsWith fence x = false -> startsWith fence (x ++ closing) = false.
Proof.
  unfold startsWith.
  destruct x as [|c1 [|c2 [|c3 x]]]; cbn;
    repeat match goal with
           | |- context [Ascii.eqb ?a ?b] => destruct (Ascii.eqb a b)
           end; auto.
Qed.

Lemma lazyGroup_body x :
  includes fence x = false -> lazyGroup (x ++ closing) = Some x.
Proof.
  induction x as [|c x IH]; intros H; [reflexivity|].
  apply includes_cons in H. destruct H as (_ & Hx).
  assert (Hc : startsWith closing (String c x ++ closing) = false).
  { unfold startsWith. cbn -[fence]. destruct (Ascii.eqb "010" c); [|reflexivity].
    apply includes_head, no_fence_across in Hx.
    unfold startsWith in Hx. exact Hx. }
  change (lazyGroup (String c x ++ closing))
    with (if startsWith closing (String c x ++ closing)
          then Some EmptyString
          else option_map (String c) (lazyGroup (x ++ closing))).
  rewrite Hc, (IH Hx). reflexivity.
Qed.

Lemma space_not_LF c : isWhiteSpace c = false -> Ascii.eqb c LF = false.
Proof.
  intros H. destruct (Ascii.eqb_spec c LF) as [->|]; [discriminate H | reflexivity].
Qed.

Lemma spaceStar_body t :
  includes fence t = false -> spaceStar (t ++ closing) = leadingRest t.
Proof.
  induction t as [|c t IH]; intros H; [reflexivity|].
  apply includes_cons in H. destruct H as (_ & Ht).
  change (spaceStar (String c t ++ closing))
    with (if isWhiteSpace c
          then match spaceStar (t ++ closing) with
               | Some g => Some g
               | None => afterSpaces (String c (t ++ closing))
               end
          else afterSpaces (String c (t ++ closing))).
  cbn [leadingRest afterSpaces]. rewrite (IH Ht), (lazyGroup_body _ Ht).
  destruct (isWhiteSpace c) eqn:Hc; [reflexivity|].
  now rewrite (space_not_LF _ Hc).
Qed.

Lemma matchHere_fenced tag body g :
  spaceStar (String LF body) = Some g ->
  matchHere (fence ++ tagText tag ++ nl ++ body) = Some g.
Proof.
  intros H. unfold matchHere, afterFence, LF in *.
  destruct tag; cbn -[spaceStar] in *; unfold LF in *; rewrite H; reflexivity.
Qed.

Lemma codeBlockMatch_fenced tag t :
  includes fence t = false ->
  codeBlockMatch (fenced tag t) = Some (captured t).
Proof.
  intros Ht.
  assert (Hs : spaceStar (String LF t ++ closing) = Some (captured t)).
  { rewrite spaceStar_body.
    - unfold captured. cbn. destruct (leadingRest t); reflexivity.
    - cbn -[fence]. rewrite Ht. reflexivity. }
  unfold fenced.
  pose proof (matchHere_fenced tag (t ++ closing) _ Hs) as Hm.
  unfold codeBlockMatch. destruct (fence ++ tagText tag ++ nl ++ t ++ closing);
    fold codeBlockMatch; rewrite Hm; reflexivity.
Qed.

Lemma codeBlockMatch_no_fence t :
  includes fence t = false -> codeBlockMatch t = None.
Proof.
  induction t as [|c t IH]; intros H; [reflexivity|].
  pose proof (includes_head _ _ H) as Hh.
  apply includes_cons in H. destruct H as (_ & Ht).
  cbn [codeBlockMatch]. unfold matchHere.
  unfold startsWith in Hh.
  destruct (stripPrefix fence (String c t)); [discriminate Hh|].
  now apply IH.
Qed.

Lemma leadingRest_trimStart t g :
  leadingRest t = Some g -> trimStart g = trimStart t.
Proof.
  revert g. induction t as [|c t IH]; intros g; cbn; [discriminate|].
  destruct (isWhiteSpace c); [|discriminate].
  destruct (leadingRest t) as [g'|].
  - intros [= <-]. now apply IH.
  - destruct (Ascii.eqb c LF); [|discriminate]. now intros [= <-].
Qed.

Lemma captured_trim t : trim (captured t) = trim t.
Proof.
  unfold captured, trim. destruct (leadingRest t) as [g|] eqn:E;
    [|reflexivity].
  now rewrite (leadingRest_trimStart _ _ E).
Qed.

Lemma allWhiteSpace_no_fence s :
  allWhiteSpace s = true -> includes fence s = false.
Proof.
  induction s as [|c s IH]; cbn -[fence]; [reflexivity|].
  intros H. apply andb_true_iff in H. destruct H as (Hc & Hs).
  rewrite (IH Hs), orb_false_r. unfold startsWith. cbn.
  destruct (Ascii.eqb_spec "`"%char c) as [<-|]; [discriminate Hc | reflexivity].
Qed.

Lemma trimStart_cases s :
  (trimStart s = EmptyString /\ allWhiteSpace s = true)
  \/ exists c r, trimStart s = String c r /\ isWhiteSpace c = false.
Proof.
  induction s as [|c s IH]; cbn; [now left|].
  destruct (isWhiteSpace c) eqn:Hc; [exact IH|].
  right. now exists c, s.
Qed.

Lemma trimEnd_nonspace_head c r :
  isWhiteSpace c = false -> trimEnd (String c r) <> EmptyString.
Proof.
  intros Hc. cbn. destruct (trimEnd r); [rewrite Hc|]; discriminate.
Qed.

Lemma trim_empty s : trim s = EmptyString -> allWhiteSpace s = true.
Proof.
  unfold trim.
  destruct (trimStart_cases s) as [(_ & H) | (c & r & -> & Hc)];
    [now intros _|].
  intros H. now apply trimEnd_nonspace_head in H.
Qed.

Lemma trimEnd_app_nonspace s c :
  isWhiteSpace c = false ->
  trimEnd (s ++ String c EmptyString) = s ++ String c EmptyString.
Proof.
  intros Hc. induction s as [|x s IH]; cbn; [now rewrite Hc|].
  rewrite IH. destruct s; reflexivity.
Qed.

Lemma trim_fenced tag t : trim (fenced tag t) = fenced tag t.
Proof.
  unfold trim.
  assert (E : fenced tag t
              = (fence ++ tagText tag ++ nl ++ t ++ nl ++ "``")
                ++ String backtick EmptyString).
  { unfold fenced, closing. rewrite !str_app_assoc. reflexivity. }
  assert (S : trimStart (fenced tag t) = fenced tag t) by reflexivity.
  rewrite S, E. now apply trimEnd_app_nonspace.
Qed.

Lemma leadingRest_blank_lines w :
  allWhiteSpace w = true -> leadingRest (w ++ nl) = Some EmptyString.
Proof.
  induction w as [|c w IH]; cbn; [reflexivity|].
  intros H. apply andb_true_iff in H. destruct H as (Hc & Hw).
  change (w ++ String LF EmptyString) with (w ++ nl).
  now rewrite Hc, (IH Hw).
Qed.

Lemma allWhiteSpace_app a b :
  allWhiteSpace a = true -> allWhiteSpace b = true ->
  allWhiteSpace (a ++ b) = true.
Proof.
  induction a as [|c a IH]; cbn; [auto|].
  intros H Hb. apply andb_true_iff in H. destruct H as (Hc & Ha).
  now rewrite Hc, IH.
Qed.

End ExtractorFacts.

(* ================================================================= *)
(** ** Extraction from fenced and unfenced text *)

Lemma allWhiteSpace_app_l a b :
  allWhiteSpace (a ++ b) = true -> allWhiteSpace a = true.
Proof.
  induction a as [|c a IH]; cbn; [reflexivity|].
  intros H. apply andb_true_iff in H. destruct H as (Hc & Hab).
  now rewrite Hc, IH.
Qed.

Lemma truthy_nonempty s : s <> EmptyString -> Js.truthy s = true.
Proof. destruct s; [congruence | reflexivity]. Qed.

Lemma extract_no_fence t :
  Js.includes Parser.fence t = false ->
  Parser.extractToonContent t
  = if Js.truthy (Js.trim t) then Some (Js.trim t) else None.
Proof.
  intros H. unfold Parser.extractToonContent.
  now rewrite (codeBlockMatch_no_fence _ H).
Qed.

Lemma captured_blank w :
  allWhiteSpace w = true ->
  w = EmptyString \/ (exists w', w = w' ++ Js.nl) ->
  captured w = EmptyString.
Proof.
  intros Hw [-> | (w' & ->)]; [reflexivity|].
  unfold captured.
  now rewrite (leadingRest_blank_lines _ (allWhiteSpace_app_l _ _ Hw)).
Qed.

(** C5, as amended.  For a text [t] without fence markers whose trimmed
    form is not empty, the extractor gives the same result on [t] wrapped
    in a fence tagged [toon], tagged [yaml] or untagged as on [t] alone;
    and on such unfenced text it returns the whole text, trimmed. *)
Theorem fenced_extraction_agrees (tag : FenceTag) (t : string) :
  Js.includes Parser.fence t = false ->
  Js.trim t <> EmptyString ->
  Parser.extractToonContent (fenced tag t) = Parser.extractToonContent t
  /\ Parser.extractToonContent t = Some (Js.trim t).
Proof.
  intros Hf Ht.
  assert (Hu : Parser.extractToonContent t = Some (Js.trim t)).
  { rewrite (extract_no_fence _ Hf), (truthy_nonempty _ Ht). reflexivity. }
  split; [|exact Hu]. rewrite Hu.
  unfold Parser.extractToonContent.
  rewrite (codeBlockMatch_fenced tag t Hf).
  pose proof (captured_trim t) as Hc.
  destruct (captured t) as [|c g].
  - exfalso. apply Ht. rewrite <- Hc. reflexivity.
  - now rewrite Hc.
Qed.

(** An instance of the agreement: the two lines of the parser's own
    test, in a [toon] fence. *)
Lemma fenced_extraction_agrees_witness :
  Parser.extractToonContent
    (fenced TagToon ("name: John" ++ Js.nl ++ "age: 30"))
  = Parser.extractToonContent ("name: John" ++ Js.nl ++ "age: 30")
  /\ Parser.extractToonContent ("name: John" ++ Js.nl ++ "age: 30")
     = Some (Js.trim ("name: John" ++ Js.nl ++ "age: 30")).
Proof.
  apply (fenced_extraction_agrees TagToon ("name: John" ++ Js.nl ++ "age: 30")).
  - vm_compute. reflexivity.
  - vm_compute. discriminate.
Defined.

(** C5, the claim as stated fails in its last part: unfenced text with
    white space around it is not returned whole, but trimmed. *)
Lemma unfenced_text_is_trimmed :
  Js.includes Parser.fence " a " = false
  /\ Js.trim " a " <> EmptyString
  /\ Parser.extractToonContent " a " = Some "a"
  /\ Parser.extractToonContent " a " <> Some " a ".
Proof.
  repeat split; vm_compute; discriminate.
Qed.

(* ================================================================= *)
(** ** The decode-and-validate pipeline *)

Section PipelineFacts.
Import Js Parser.

Variables Value T Schema : Type.
Variable decode : string -> DecodeOptions -> Completion Value.
Variable schemaParse : Schema -> Value -> Completion T.
Variable stringify : Value -> string.

(** [parse] on a text with extracted content [content]. *)
Lemma parse_extracted this text c r :
  extractToonContent text = Some (String c r) ->
  parse decode schemaParse stringify this text
  = match decode (String c r) (decodeOptions this) with
    | Throw error => Throw (JsError (decodeMessage error (String c r)))
    | Normal decoded => validate schemaParse stringify this decoded
    end.
Proof. intros H. unfold Parser.parse. rewrite H. reflexivity. Qed.

(** C2.  On the empty string, and on every text whose trimmed form is
    empty (such a text has no fenced block), the extractor returns none
    and [parse] fails with the extraction failure, whose message is a
    constant: it is neither a decode failure nor a validation failure,
    and it carries no data. *)
Theorem parse_blank_extraction_failure
        (this : ToonOutputParser Schema) (text : string) :
  trim text = EmptyString ->
  codeBlockMatch text = None
  /\ extractToonContent text = None
  /\ parse decode schemaParse stringify this text
     = Throw (JsError extractionMessage)
  /\ failureKind (JsError extractionMessage) = Some ExtractionFailure.
Proof.
  intros Ht.
  pose proof (allWhiteSpace_no_fence _ (trim_empty _ Ht)) as Hf.
  assert (He : extractToonContent text = None).
  { rewrite (extract_no_fence _ Hf), Ht. reflexivity. }
  repeat split.
  - now apply codeBlockMatch_no_fence.
  - exact He.
  - unfold Parser.parse. rewrite He. reflexivity.
Qed.

(** C9, as amended.  When the interior of a fenced block is empty or
    consists of blank lines only (white space that ends in a line feed),
    the capture of the expression is empty, so the extractor falls back
    to the whole trimmed text, fence markers included, and this is what
    [parse] hands to the decoder. *)
Theorem blank_fence_falls_back
        (this : ToonOutputParser Schema) (tag : FenceTag) (w : string) :
  allWhiteSpace w = true ->
  w = EmptyString \/ (exists w', w = w' ++ nl) ->
  codeBlockMatch (fenced tag w) = Some EmptyString
  /\ extractToonContent (fenced tag w) = Some (fenced tag w)
  /\ parse decode schemaParse stringify this (fenced tag w)
     = match decode (fenced tag w) (decodeOptions this) with
       | Throw error =>
           Throw (JsError (decodeMessage error (fenced tag w)))
       | Normal decoded => validate schemaParse stringify this decoded
       end.
Proof.
  intros Hw Hend.
  assert (Hm : codeBlockMatch (fenced tag w) = Some EmptyString).
  { rewrite (codeBlockMatch_fenced tag w (allWhiteSpace_no_fence _ Hw)).
    now rewrite (captured_blank _ Hw Hend). }
  assert (He : extractToonContent (fenced tag w) = Some (fenced tag w)).
  { unfold extractToonContent. rewrite Hm, trim_fenced. reflexivity. }
  repeat split; [exact Hm | exact He |].
  unfold Parser.parse. rewrite He. reflexivity.
Qed.

(** When decoding succeeds and the validator signals a [ZodError], the
    failure of [parse] is the validation failure with one line per
    issue and the decoded tree. *)
Lemma parse_validation_failure this text c r v zmsg issues :
  extractToonContent text = Some (String c r) ->
  decode (String c r) (decodeOptions this) = Normal v ->
  schemaParse (schema this) v = Throw (ZodError zmsg issues) ->
  parse decode schemaParse stringify this text
  = Throw (JsError (validationMessage issues (stringify v)))
  /\ failureKind (JsError (validationMessage issues (stringify v)))
     = Some ValidationFailure.
Proof.
  intros He Hd Hv. split; [|reflexivity].
  rewrite (parse_extracted _ _ _ _ He), Hd.
  unfold Parser.validate. rewrite Hv. reflexivity.
Qed.

(** C10.  When decoding succeeds and the validator throws a value that
    is not a [ZodError], [parse] throws that very value: no validation
    message, no issue list, no decoded tree. *)
Theorem parse_rethrows_other_errors
        (this : ToonOutputParser Schema) (text : string)
        (c : ascii) (r : string) (v : Value) (e : Thrown) :
  extractToonContent text = Some (String c r) ->
  decode (String c r) (decodeOptions this) = Normal v ->
  schemaParse (schema this) v = Throw e ->
  (forall zmsg issues, e <> ZodError zmsg issues) ->
  parse decode schemaParse stringify this text = Throw e.
Proof.
  intros He Hd Hv Hz.
  rewrite (parse_extracted _ _ _ _ He), Hd.
  unfold Parser.validate. rewrite Hv.
  destruct e as [msg | zmsg issues | other];
    [reflexivity | now destruct (Hz zmsg issues) | reflexivity].
Qed.

(** The configured delimiter has no effect on [parse]. *)
Lemma parse_delimiter_irrelevant sch d1 d2 st text :
  parse decode schemaParse stringify (new sch (mkOptions d1 st)) text
  = parse decode schemaParse stringify (new sch (mkOptions d2 st)) text.
Proof. reflexivity. Qed.

End PipelineFacts.

(* ================================================================= *)
(** ** Instances with the sample collaborators *)

(** The extraction failure on the empty string. *)
Lemma parse_blank_extraction_failure_witness :
  Parser.codeBlockMatch EmptyString = None
  /\ Parser.extractToonContent EmptyString = None
  /\ Parser.parse ageDecode ageParse showTree
       (Parser.new tt (Parser.mkOptions None None)) EmptyString
     = Parser.Throw (Parser.JsError Parser.extractionMessage)
  /\ Parser.failureKind (Parser.JsError Parser.extractionMessage)
     = Some Parser.ExtractionFailure.
Proof.
  apply (parse_blank_extraction_failure Tree nat unit ageDecode ageParse
           showTree (Parser.new tt (Parser.mkOptions None None)) EmptyString).
  reflexivity.
Defined.

(** The fallback on a [toon] fence around one blank line. *)
Lemma blank_fence_falls_back_witness :
  Parser.codeBlockMatch (fenced TagToon Js.nl) = Some EmptyString
  /\ Parser.extractToonContent (fenced TagToon Js.nl)
     = Some (fenced TagToon Js.nl)
  /\ Parser.parse spyDecode acceptAll (fun _ => EmptyString)
       (Parser.new tt (Parser.mkOptions None None)) (fenced TagToon Js.nl)
     = match spyDecode (fenced TagToon Js.nl)
               (Parser.decodeOptions
                  (Parser.new tt (Parser.mkOptions None None))) with
       | Parser.Throw error =>
           Parser.Throw
             (Parser.JsError
                (Parser.decodeMessage error (fenced TagToon Js.nl)))
       | Parser.Normal decoded =>
           Parser.validate acceptAll (fun _ => EmptyString)
             (Parser.new tt (Parser.mkOptions None None)) decoded
       end.
Proof.
  apply (blank_fence_falls_back (string * Parser.DecodeOptions)
           (string * Parser.DecodeOptions) unit spyDecode acceptAll
           (fun _ => EmptyString)
           (Parser.new tt (Parser.mkOptions None None)) TagToon Js.nl).
  - reflexivity.
  - right. exists EmptyString. reflexivity.
Defined.

(** C9, the claim as stated fails: when the interior of the fence is two
    spaces, the capture is not empty, the extractor returns its trimmed
    form, the empty string, and [parse] fails with the extraction failure
    without calling the decoder. *)
Lemma blank_interior_with_spaces :
  allWhiteSpace "  " = true
  /\ Parser.codeBlockMatch (fenced TagToon "  ") = Some "  "
  /\ Parser.extractToonContent (fenced TagToon "  ") = Some EmptyString
  /\ Parser.extractToonContent (fenced TagToon "  ")
     <> Some (fenced TagToon "  ")
  /\ Parser.parse spyDecode acceptAll (fun _ => EmptyString)
       (Parser.new tt (Parser.mkOptions None None)) (fenced TagToon "  ")
     = Parser.Throw (Parser.JsError Parser.extractionMessage).
Proof.
  repeat split. vm_compute. discriminate.
Qed.

(** The modelled decoder and validator on the round trip of the
    specification: the two lines decode to a mapping with a string and a
    number, which the schema accepts and [parse] returns. *)
Lemma spec_round_trip (stringify : DecodedValue -> string) :
  Parser.parse specDecode specSchemaParse stringify
    (Parser.new (ZodObject [("name", ZodString); ("age", ZodNumber)])
                (Parser.mkOptions None None))
    ("name: John" ++ Js.nl ++ "age: 30")
  = Parser.Normal (VObject [("name", VString "John"); ("age", VNumber 30)]).
Proof. reflexivity. Qed.

(** C4.  For the schema [{age: number}] and the text [age: not-a-number],
    with the decoder and the validator as the specification describes
    them: the text decodes, to a mapping whose [age] is a string scalar;
    the validator finds one violation, at the path [age]; and [parse],
    whatever the options of the parser, fails with the validation
    failure, whose message has the line of the path and the reason and
    then the decoded tree.  It is not the decode failure. *)
Theorem age_not_a_number_validation_failure :
  forall (stringify : DecodedValue -> string)
         (options : Parser.ToonOutputParserOptions),
    let this := Parser.new ageSchema options in
    let decoded := VObject [("age", VString "not-a-number")] in
    specDecode "age: not-a-number" (Parser.decodeOptions this)
    = Parser.Normal decoded
    /\ issuesAt [] ageSchema decoded
       = [Parser.mkIssue [Parser.Key "age"]
                         "Expected number, received string"]
    /\ Parser.parse specDecode specSchemaParse stringify this
         "age: not-a-number"
       = Parser.Throw
           (Parser.JsError
              ("Failed to validate TOON output against schema:" ++ Js.nl
               ++ "  - age: Expected number, received string"
               ++ Js.nl ++ Js.nl
               ++ "Decoded data: " ++ stringify decoded))
    /\ (forall e,
           Parser.parse specDecode specSchemaParse stringify this
             "age: not-a-number"
           = Parser.Throw e ->
           Parser.failureKind e = Some Parser.ValidationFailure
           /\ Parser.failureKind e <> Some Parser.DecodeFailure).
Proof.
  intros stringify options this decoded.
  assert (Hp : Parser.parse specDecode specSchemaParse stringify this
                 "age: not-a-number"
               = Parser.Throw
                   (Parser.JsError
                      ("Failed to validate TOON output against schema:"
                       ++ Js.nl
                       ++ "  - age: Expected number, received string"
                       ++ Js.nl ++ Js.nl
                       ++ "Decoded data: " ++ stringify decoded))).
  { reflexivity. }
  split; [reflexivity|]. split; [reflexivity|]. split; [exact Hp|].
  intros e He. rewrite Hp in He. injection He as <-.
  split; [reflexivity | discriminate].
Qed.

(** A validator that throws a plain error: [parse] throws it again. *)
Lemma parse_rethrows_other_errors_witness :
  Parser.parse ageDecode brokenParse showTree
    (Parser.new tt (Parser.mkOptions None None)) "age: not-a-number"
  = Parser.Throw (Parser.JsError "validator crashed").
Proof.
  apply (parse_rethrows_other_errors Tree nat unit ageDecode brokenParse
           showTree (Parser.new tt (Parser.mkOptions None None))
           "age: not-a-number" "a"%char "ge: not-a-number"
           (TObject [("age", TString "not-a-number")])
           (Parser.JsError "validator crashed")).
  - reflexivity.
  - reflexivity.
  - reflexivity.
  - intros zmsg issues H. discriminate H.
Defined.

(** C1.  The constructor resolves the defaults (a comma, strict), but
    [parse] never reads the delimiter: the options object it passes to
    the decoder has the strictness only, whatever delimiter was
    configured, so that parsers that differ in the delimiter alone behave
    alike.  With a tab configured, a decoder that reports its arguments
    shows the extracted text and an options object without delimiter. *)
Theorem decoder_receives_no_delimiter :
  (forall (Schema : Type) (sch : Schema) opts,
      Parser.optDelimiter (Parser.options (Parser.new sch opts))
      = Parser.orElse (Parser.delimiter opts) ","
      /\ Parser.optStrict (Parser.options (Parser.new sch opts))
         = Parser.orElse (Parser.strict opts) true
      /\ Parser.decodeOptions (Parser.new sch opts)
         = Parser.mkDecodeOptions None
             (Some (Parser.orElse (Parser.strict opts) true)))
  /\ (forall (Value T Schema : Type) decode schemaParse stringify
             (sch : Schema) d1 d2 st text,
         Parser.parse (Value := Value) (T := T) decode schemaParse stringify
           (Parser.new sch (Parser.mkOptions d1 st)) text
         = Parser.parse decode schemaParse stringify
             (Parser.new sch (Parser.mkOptions d2 st)) text)
  /\ Parser.parse spyDecode acceptAll (fun _ => EmptyString)
       (Parser.new tt
          (Parser.mkOptions (Some (String "009" EmptyString)) None))
       "a: 1"
     = Parser.Normal ("a: 1", Parser.mkDecodeOptions None (Some true)).
Proof.
  repeat split.
Qed.

(* ================================================================= *)
(** ** The revision with the [N] placeholder *)

(** In [Legacy] the header of a table carries the placeholder [N] instead
    of the row count 2. *)
Lemma legacy_table_header :
  let schema :=
    ZodObject [("items",
                ZodArray (ZodObject [("id", ZodNumber);
                                     ("value", ZodString)]))] in
  Js.includes "items[N]{id,value}:" (Legacy.zodSchemaToToonInstructions schema)
  = true
  /\ Js.includes "[2]{id,value}:" (Legacy.zodSchemaToToonInstructions schema)
     = false
  /\ Js.includes "items[2]{id,value}:" (Synth.zodSchemaToToonInstructions schema)
     = true.
Proof. vm_compute. repeat split. Qed.

(** In [Legacy] every enum literal is wrapped in quote characters. *)
Lemma legacy_enum_always_quoted v0 rest alternate :
  Legacy.getExampleValue (SEnum (Some (v0 :: rest))) alternate
  = Js.dq ++ pickedLiteral v0 rest alternate ++ Js.dq.
Proof. destruct alternate, rest; reflexivity. Qed.

(* ================================================================= *)
(** ** The lines of the example *)

Section FieldLineFacts.
Import Js.

Lemma join_cons2 sep a b l :
  join sep (a :: b :: l) = a ++ sep ++ join sep (b :: l).
Proof. reflexivity. Qed.

Lemma join_app sep (a b : list string) :
  a <> [] -> b <> [] ->
  join sep (a ++ b) = join sep a ++ sep ++ join sep b.
Proof.
  intros Ha Hb. induction a as [|x a IH]; [congruence|].
  destruct a as [|y a].
  - destruct b as [|z b]; [congruence | reflexivity].
  - change ((x :: y :: a) ++ b)%list with (x :: y :: (a ++ b))%list.
    rewrite !join_cons2.
    change (y :: (a ++ b))%list with ((y :: a) ++ b)%list.
    rewrite IH by discriminate. now rewrite !str_app_assoc.
Qed.

(** A non-empty run of consecutive elements of a joined list stands on
    lines of its own. *)
Lemma join_block sep (l1 blk l2 : list string) :
  blk <> [] ->
  exists p q,
    join sep (l1 ++ blk ++ l2) = p ++ join sep blk ++ q
    /\ (l1 = [] /\ p = EmptyString \/ l1 <> [] /\ exists r, p = r ++ sep)
    /\ (q = EmptyString \/ exists r, q = sep ++ r).
Proof.
  intros Hb.
  assert (Hq : exists q, join sep (blk ++ l2) = join sep blk ++ q
                         /\ (q = EmptyString \/ exists r, q = sep ++ r)).
  { destruct l2 as [|z l2].
    - exists EmptyString. rewrite app_nil_r, str_app_nil_r. auto.
    - exists (sep ++ join sep (z :: l2)). split.
      + apply join_app; [exact Hb | discriminate].
      + right. now eexists. }
  destruct Hq as (q & Hj & Hq).
  destruct l1 as [|x l1].
  - exists EmptyString, q. cbn [List.app append]. auto.
  - exists (join sep (x :: l1) ++ sep), q. split; [|split].
    + rewrite join_app; [| discriminate | destruct blk; [congruence | discriminate]].
      rewrite Hj, !str_app_assoc. reflexivity.
    + right. split; [discriminate | now eexists].
    + exact Hq.
Qed.

Lemma fieldLines_nonempty indent kv : fieldLines indent kv <> [].
Proof. unfold fieldLines. destruct (snd kv); discriminate. Qed.

Lemma lineStart_app p pre :
  (exists r, p = r ++ nl) -> lineStart pre -> exists r, p ++ pre = r ++ nl.
Proof.
  intros (r & ->) [-> | (r' & ->)].
  - exists r. now rewrite str_app_nil_r.
  - exists ((r ++ nl) ++ r'). now rewrite !str_app_assoc.
Qed.

(** The example of an object shows the lines of each of its fields, at
    any depth of nested objects, as whole lines. *)
Lemma example_contains_field shape depth key s :
  FieldAt shape depth key s ->
  forall indent, exists pre post,
    Synth.generateToonExample shape indent
    = pre ++ join nl (fieldLines (indent + depth) (key, s)) ++ post
    /\ lineStart pre /\ lineEnd post.
Proof.
  induction 1 as [fields key s Hin
                 | fields k inner depth key s Hin _ IH]; intros indent.
  - apply in_split in Hin. destruct Hin as (l1 & l2 & ->).
    rewrite generateToonExample_object, flat_map_app. cbn [flat_map].
    destruct (join_block nl (flat_map (fieldLines indent) l1)
                (fieldLines indent (key, s))
                (flat_map (fieldLines indent) l2)
                (fieldLines_nonempty _ _)) as (p & q & Hj & Hp & Hq).
    exists p, q. rewrite Nat.add_0_r. split; [exact Hj|]. split; [|exact Hq].
    destruct Hp as [(_ & ->) | (_ & Hr)]; [now left | now right].
  - apply in_split in Hin. destruct Hin as (l1 & l2 & ->).
    destruct (IH (indent + 1)) as (pre & post & Hex & Hpre & Hpost).
    rewrite generateToonExample_object, flat_map_app. cbn [flat_map].
    change (fieldLines indent (k, SObject inner))
      with (List.app [repeat "  " indent ++ k ++ ":"]
              [Synth.generateToonExample (SObject inner) (indent + 1)]).
    rewrite <- app_assoc, app_assoc.
    destruct (join_block nl
                (List.app (flat_map (fieldLines indent) l1)
                   [repeat "  " indent ++ k ++ ":"])
                [Synth.generateToonExample (SObject inner) (indent + 1)]
                (flat_map (fieldLines indent) l2)) as (p & q & Hj & Hp & Hq);
      [discriminate|].
    destruct Hp as [(Hnil & _) | (_ & Hr)];
      [now destruct (flat_map (fieldLines indent) l1)|].
    exists (p ++ pre), (post ++ q). split; [|split].
    + rewrite Hj. cbn [join]. rewrite Hex.
      replace (indent + S depth) with (indent + 1 + depth) by lia.
      rewrite !str_app_assoc. reflexivity.
    + right. now apply lineStart_app.
    + now apply lineEnd_app.
Qed.

Lemma instructions_head_example schema :
  Synth.zodSchemaToToonInstructions schema
  = instructionsHead schema
    ++ Synth.generateToonExample (getSchemaShape schema) 0
    ++ Synth.closingText.
Proof.
  unfold Synth.zodSchemaToToonInstructions, instructionsHead. cbv zeta.
  generalize (Synth.generateToonExample (getSchemaShape schema) 0)
             (Synth.constraintsText
                (Synth.collectEnumConstraints (getSchemaShape schema)
                   EmptyString))
             Synth.rulesText Synth.closingText
             "Expected structure:" "```toon" nl.
  intros. rewrite !str_app_assoc. reflexivity.
Qed.

Lemma instructionsHead_lineStart schema :
  exists r, instructionsHead schema = r ++ nl.
Proof.
  unfold instructionsHead. eexists. rewrite <- !str_app_assoc. reflexivity.
Qed.

(** The lines of a field, as they stand in the instructions. *)
Lemma instructions_contain_field schema depth key s :
  FieldAt (getSchemaShape schema) depth key s ->
  exists pre post,
    Synth.zodSchemaToToonInstructions schema
    = pre ++ join nl (fieldLines depth (key, s)) ++ post
    /\ (exists r, pre = r ++ nl) /\ (exists r, post = nl ++ r).
Proof.
  intros H.
  destruct (example_contains_field _ _ _ _ H 0)
    as (pre & post & Hex & Hpre & Hpost).
  cbn [Nat.add] in Hex.
  exists (instructionsHead schema ++ pre), (post ++ Synth.closingText).
  split; [|split].
  - rewrite instructions_head_example, Hex, !str_app_assoc. reflexivity.
  - apply lineStart_app; [apply instructionsHead_lineStart | exact Hpre].
  - destruct Hpost as [-> | (r & ->)].
    + eexists. reflexivity.
    + exists (r ++ Synth.closingText). now rewrite str_app_assoc.
Qed.

End FieldLineFacts.

(** X1.  A field that is neither an object nor an array, at any depth of
    nested objects, stands in the instructions on a line of its own: the
    indentation of its depth, the key, a colon, a space and the example
    value of its shape. *)
Theorem scalar_field_line
        (schema : ZodType) (depth : nat) (key : string) (s : SchemaShape) :
  isObjectShape s = false ->
  isArrayShape s = false ->
  FieldAt (getSchemaShape schema) depth key s ->
  exists pre post,
    Synth.zodSchemaToToonInstructions schema
    = pre
      ++ (Js.repeat "  " depth ++ key ++ ": "
          ++ Synth.getExampleValue s false)
      ++ post
    /\ (exists r, pre = r ++ Js.nl) /\ (exists r, post = Js.nl ++ r).
Proof.
  intros Ho Ha H.
  destruct (instructions_contain_field _ _ _ _ H) as (pre & post & E & Hp).
  exists pre, post. split; [|exact Hp]. rewrite E.
  destruct s; try discriminate; reflexivity.
Qed.

(** The optional nickname of the synthesizer's own test. *)
Lemma scalar_field_line_witness :
  exists pre post,
    Synth.zodSchemaToToonInstructions
      (ZodObject [("name", ZodString);
                  ("nickname", ZodOptional ZodString)])
    = pre
      ++ (Js.repeat "  " 0 ++ "nickname" ++ ": "
          ++ Synth.getExampleValue SString false)
      ++ post
    /\ (exists r, pre = r ++ Js.nl) /\ (exists r, post = Js.nl ++ r).
Proof.
  apply (scalar_field_line
           (ZodObject [("name", ZodString);
                       ("nickname", ZodOptional ZodString)])
           0 "nickname" SString).
  - reflexivity.
  - reflexivity.
  - simpl. apply field_here. simpl. right. left. reflexivity.
Defined.

(** X2.  A field that is an object stands in the instructions as a line
    with the indentation, the key and a colon, and the example of the
    nested object follows on the next line, one level deeper. *)
Theorem object_field_lines
        (schema : ZodType) (depth : nat) (key : string)
        (inner : list (string * SchemaShape)) :
  FieldAt (getSchemaShape schema) depth key (SObject inner) ->
  exists pre post,
    Synth.zodSchemaToToonInstructions schema
    = pre
      ++ (Js.repeat "  " depth ++ key ++ ":" ++ Js.nl
          ++ Synth.generateToonExample (SObject inner) (depth + 1))
      ++ post
    /\ (exists r, pre = r ++ Js.nl) /\ (exists r, post = Js.nl ++ r).
Proof.
  intros H.
  destruct (instructions_contain_field _ _ _ _ H) as (pre & post & E & Hp).
  exists pre, post. split; [|exact Hp]. rewrite E.
  unfold fieldLines. cbn [snd fst Js.join].
  rewrite !str_app_assoc. reflexivity.
Qed.

(** The nested user of the synthesizer's own test. *)
Lemma object_field_lines_witness :
  exists pre post,
    Synth.zodSchemaToToonInstructions
      (ZodObject [("user", ZodObject [("name", ZodString)])])
    = pre
      ++ (Js.repeat "  " 0 ++ "user" ++ ":" ++ Js.nl
          ++ Synth.generateToonExample (SObject [("name", SString)]) (0 + 1))
      ++ post
    /\ (exists r, pre = r ++ Js.nl) /\ (exists r, post = Js.nl ++ r).
Proof.
  apply (object_field_lines
           (ZodObject [("user", ZodObject [("name", ZodString)])])
           0 "user" [("name", SString)]).
  simpl. apply field_here. simpl. left. reflexivity.
Defined.

(** X3.  A field that is an array whose element is not an object stands
    in the instructions on one line: the indentation, the key, the count
    marker [2], a colon, a space, and the example value and the alternate
    example value of the element separated by a comma without a space. *)
Theorem primitive_array_field_line
        (schema : ZodType) (depth : nat) (key : string)
        (element : SchemaShape) :
  isObjectShape element = false ->
  FieldAt (getSchemaShape schema) depth key (SArray element) ->
  exists pre post,
    Synth.zodSchemaToToonInstructions schema
    = pre
      ++ (Js.repeat "  " depth ++ key ++ "[2]: "
          ++ Synth.getExampleValue element false ++ ","
          ++ Synth.getExampleValue element true)
      ++ post
    /\ (exists r, pre = r ++ Js.nl) /\ (exists r, post = Js.nl ++ r).
Proof.
  intros Ho H.
  destruct (instructions_contain_field _ _ _ _ H) as (pre & post & E & Hp).
  exists pre, post. split; [|exact Hp]. rewrite E.
  destruct element; try discriminate; reflexivity.
Qed.

(** An array of strings. *)
Lemma primitive_array_field_line_witness :
  exists pre post,
    Synth.zodSchemaToToonInstructions
      (ZodObject [("tags", ZodArray ZodString)])
    = pre
      ++ (Js.repeat "  " 0 ++ "tags" ++ "[2]: "
          ++ Synth.getExampleValue SString false ++ ","
          ++ Synth.getExampleValue SString true)
      ++ post
    /\ (exists r, pre = r ++ Js.nl) /\ (exists r, post = Js.nl ++ r).
Proof.
  apply (primitive_array_field_line
           (ZodObject [("tags", ZodArray ZodString)]) 0 "tags" SString).
  - reflexivity.
  - simpl. apply field_here. simpl. left. reflexivity.
Defined.

(* ================================================================= *)
(** ** Example values and their alternates *)

Lemma units_app a b : units (a ++ b) = (units a ++ units b)%list.
Proof.
  unfold units. induction a as [|c a IH]; cbn; [reflexivity | now rewrite IH].
Qed.

Lemma units_inj a b : units a = units b -> a = b.
Proof.
  unfold units. intros H.
  rewrite <- (string_of_list_ascii_of_string a),
          <- (string_of_list_ascii_of_string b).
  now rewrite H.
Qed.

Lemma str_app_inv_tail a b c : a ++ c = b ++ c -> a = b.
Proof.
  intros H. apply units_inj.
  apply (f_equal units) in H. rewrite !units_app in H.
  now apply app_inv_tail in H.
Qed.

Lemma needsQuotes_leading_quote v :
  Synth.needsQuotes (Js.dq ++ v) = true.
Proof. reflexivity. Qed.

(** The rendering of an enum literal by [getExampleValue]. *)
Lemma quoted_literal_inj v0 v1 :
  (if Synth.needsQuotes v0 then Js.dq ++ v0 ++ Js.dq else v0)
  = (if Synth.needsQuotes v1 then Js.dq ++ v1 ++ Js.dq else v1) ->
  v0 = v1.
Proof.
  destruct (Synth.needsQuotes v0) eqn:E0, (Synth.needsQuotes v1) eqn:E1;
    intros H.
  - injection H as H. now apply str_app_inv_tail in H.
  - subst v1. rewrite needsQuotes_leading_quote in E1. discriminate E1.
  - subst v0. rewrite needsQuotes_leading_quote in E0. discriminate E0.
  - exact H.
Qed.

(** X4.  The example value and the alternate example value of a shape
    are the same text only for an enum shape without a second, different
    literal: an enum without values, with one literal, or whose first two
    literals coincide.  For every other shape, and for an enum whose first
    two literals differ, the two rows of a table show different values in
    that column. *)
Theorem alternate_example_differs (s : SchemaShape) :
  Synth.getExampleValue s false = Synth.getExampleValue s true
  <-> match s with
      | SEnum None | SEnum (Some []) | SEnum (Some [_]) => True
      | SEnum (Some (v0 :: v1 :: _)) => v0 = v1
      | _ => False
      end.
Proof.
  destruct s as [fields | element | | | | | [[|v0 [|v1 rest]]|]];
    cbn [Synth.getExampleValue];
    try (split; [intros H; discriminate H | intros []]);
    try (split; [intros _; exact I | intros _; reflexivity]).
  split.
  - apply quoted_literal_inj.
  - intros ->. reflexivity.
Qed.

(* ================================================================= *)
(** ** Modifiers and unrecognized kinds at any depth *)

(** Induction on schemas that reaches the fields of an object. *)
Section SchemaInduction.
Variable P : ZodType -> Prop.
Hypothesis HOptional : forall inner, P inner -> P (ZodOptional inner).
Hypothesis HNullable : forall inner, P inner -> P (ZodNullable inner).
Hypothesis HDefault : forall inner, P inner -> P (ZodDefault inner).
Hypothesis HObject :
  forall shape, Forall (fun kv => P (snd kv)) shape -> P (ZodObject shape).
Hypothesis HArray : forall type, P type -> P (ZodArray type).
Hypothesis HString : P ZodString.
Hypothesis HNumber : P ZodNumber.
Hypothesis HBoolean : P ZodBoolean.
Hypothesis HDate : P ZodDate.
Hypothesis HEnum : forall vs, P (ZodEnum vs).
Hypothesis HOther : forall name, P (ZodOther name).

Fixpoint schema_nested_ind (s : ZodType) : P s :=
  match s with
  | ZodOptional inner => HOptional inner (schema_nested_ind inner)
  | ZodNullable inner => HNullable inner (schema_nested_ind inner)
  | ZodDefault inner => HDefault inner (schema_nested_ind inner)
  | ZodObject shape =>
      HObject shape
        ((fix all (l : list (string * ZodType))
           : Forall (fun kv => P (snd kv)) l :=
            match l with
            | [] => Forall_nil _
            | (k, v) :: rest =>
                Forall_cons (k, v) (schema_nested_ind v) (all rest)
            end) shape)
  | ZodArray type => HArray type (schema_nested_ind type)
  | ZodString => HString
  | ZodNumber => HNumber
  | ZodBoolean => HBoolean
  | ZodDate => HDate
  | ZodEnum vs => HEnum vs
  | ZodOther name => HOther name
  end.
End SchemaInduction.

Lemma getSchemaShape_plain schema :
  getSchemaShape (plainSchema schema) = getSchemaShape schema.
Proof.
  induction schema as [inner IH | inner IH | inner IH | shape IH | type IH
                      | | | | | vs | name] using schema_nested_ind;
    cbn [plainSchema getSchemaShape]; try assumption; try reflexivity.
  - f_equal. induction IH as [|[key value] rest Hv _ IHrest]; [reflexivity|].
    cbn [snd] in Hv. rewrite Hv, IHrest. reflexivity.
  - now rewrite IH.
Qed.

Lemma plainSchema_isPlain schema : isPlain (plainSchema schema) = true.
Proof.
  induction schema as [inner IH | inner IH | inner IH | shape IH | type IH
                      | | | | | vs | name] using schema_nested_ind;
    cbn [plainSchema isPlain]; try assumption; try reflexivity.
  induction IH as [|[key value] rest Hv _ IHrest]; [reflexivity|].
  cbn [snd] in Hv. rewrite Hv, IHrest. reflexivity.
Qed.

(** X5.  Optional, nullable and default modifiers and unrecognized node
    kinds are invisible at every depth, not only at the root: a schema
    and the schema with all modifiers removed and every unrecognized node
    replaced by a string have the same shape, hence the same
    instructions; the latter schema has no modifier and no unrecognized
    node left. *)
Theorem modifiers_invisible_everywhere (schema : ZodType) :
  isPlain (plainSchema schema) = true
  /\ getSchemaShape (plainSchema schema) = getSchemaShape schema
  /\ Synth.zodSchemaToToonInstructions (plainSchema schema)
     = Synth.zodSchemaToToonInstructions schema
  /\ Legacy.zodSchemaToToonInstructions (plainSchema schema)
     = Legacy.zodSchemaToToonInstructions schema.
Proof.
  split; [apply plainSchema_isPlain|].
  split; [apply getSchemaShape_plain|].
  unfold Synth.zodSchemaToToonInstructions, Legacy.zodSchemaToToonInstructions.
  cbv zeta. rewrite getSchemaShape_plain. split; reflexivity.
Qed.

(* ================================================================= *)
(** ** Records and enum nodes *)

Lemma collected_enum_node shape prefix c :
  Collected shape prefix c -> EnumNode (values c) shape.
Proof.
  induction 1 as [fields prefix key vs Hin
                 | fields prefix key inner c Hin _ IH
                 | fields prefix key vs Hin
                 | fields prefix key inner c Hin _ IH].
  - eapply enum_in_field; [exact Hin | apply enum_root].
  - eapply enum_in_field; [exact Hin | exact IH].
  - eapply enum_in_field; [exact Hin | apply enum_in_element, enum_root].
  - eapply enum_in_field; [exact Hin | apply enum_in_element, IH].
Qed.

(** X6.  The collector invents nothing: every record it returns, under
    any prefix, carries the literal list of an enum node that occurs in
    the shape tree, verbatim and in order. *)
Theorem records_are_enum_nodes
        (shape : SchemaShape) (prefix : string) (c : EnumConstraint) :
  In c (Synth.collectEnumConstraints shape prefix) ->
  EnumNode (values c) shape.
Proof.
  intros H. apply (collected_enum_node shape prefix).
  now apply collected_sound.
Qed.

(** The role of the synthesizer's own test. *)
Lemma records_are_enum_nodes_witness :
  EnumNode
    (values (mkConstraint "role" ["admin"; "user"; "guest"]))
    (SObject [("role", SEnum (Some ["admin"; "user"; "guest"]))]).
Proof.
  apply (records_are_enum_nodes
           (SObject [("role", SEnum (Some ["admin"; "user"; "guest"]))])
           EmptyString (mkConstraint "role" ["admin"; "user"; "guest"])).
  simpl. left. reflexivity.
Defined.

(* ================================================================= *)
(** ** The first fenced block among other text *)

Section FirstFenceFacts.
Import Js Parser.

Lemma no_fence_across_rest x rest :
  startsWith fence x = false ->
  startsWith fence (x ++ closing ++ rest) = false.
Proof.
  unfold startsWith, fence, closing, nl.
  destruct x as [|c1 [|c2 [|c3 x]]]; cbn;
    repeat match goal with
           | |- context [Ascii.eqb ?a ?b] => destruct (Ascii.eqb a b)
           end; auto.
Qed.

Lemma lazyGroup_body_rest x rest :
  includes fence x = false -> lazyGroup (x ++ closing ++ rest) = Some x.
Proof.
  induction x as [|c x IH]; intros H; [reflexivity|].
  apply includes_cons in H. destruct H as (_ & Hx).
  assert (Hc : startsWith closing (String c x ++ closing ++ rest) = false).
  { unfold startsWith. cbn -[fence].
    destruct (Ascii.eqb "010" c); [|reflexivity].
    apply includes_head, (no_fence_across_rest _ rest) in Hx.
    unfold startsWith in Hx. exact Hx. }
  change (lazyGroup (String c x ++ closing ++ rest))
    with (if startsWith closing (String c x ++ closing ++ rest)
          then Some EmptyString
          else option_map (String c) (lazyGroup (x ++ closing ++ rest))).
  rewrite Hc, (IH Hx). reflexivity.
Qed.

Lemma spaceStar_body_rest t rest :
  includes fence t = false ->
  allWhiteSpace t = false ->
  spaceStar (t ++ closing ++ rest) = leadingRest t.
Proof.
  induction t as [|c t IH]; intros H Hw; [discriminate Hw|].
  apply includes_cons in H. destruct H as (_ & Ht).
  change (spaceStar (String c t ++ closing ++ rest))
    with (if isWhiteSpace c
          then match spaceStar (t ++ closing ++ rest) with
               | Some g => Some g
               | None => afterSpaces (String c (t ++ closing ++ rest))
               end
          else afterSpaces (String c (t ++ closing ++ rest))).
  cbn [leadingRest afterSpaces allWhiteSpace] in *.
  rewrite (lazyGroup_body_rest _ rest Ht).
  destruct (isWhiteSpace c) eqn:Hc.
  - rewrite (IH Ht Hw). reflexivity.
  - now rewrite (space_not_LF _ Hc).
Qed.

Lemma codeBlockMatch_here s g :
  matchHere s = Some g -> codeBlockMatch s = Some g.
Proof. intros H. destruct s; cbn [codeBlockMatch]; now rewrite H. Qed.

Lemma hasBacktick_app a b :
  hasBacktick (a ++ b) = hasBacktick a || hasBacktick b.
Proof.
  unfold hasBacktick. induction a as [|c a IH]; cbn [append testClass];
    [reflexivity | now rewrite IH, orb_assoc].
Qed.

Lemma codeBlockMatch_skip p s :
  hasBacktick p = false -> codeBlockMatch (p ++ s) = codeBlockMatch s.
Proof.
  unfold hasBacktick. induction p as [|c p IH]; cbn [testClass append];
    [reflexivity|].
  intros H. apply orb_false_iff in H. destruct H as (Hc & Hp).
  unfold backtick in Hc.
  cbn [codeBlockMatch]. unfold matchHere at 1. unfold fence.
  cbn [stripPrefix]. rewrite Hc. now apply IH.
Qed.

Lemma allWhiteSpace_trim t : allWhiteSpace t = true -> trim t = EmptyString.
Proof.
  unfold trim. induction t as [|c t IH]; cbn [allWhiteSpace trimStart];
    [reflexivity|].
  intros H. apply andb_true_iff in H. destruct H as (Hc & Ht).
  rewrite Hc. now apply IH.
Qed.

Lemma nonblank t : trim t <> EmptyString -> allWhiteSpace t = false.
Proof.
  intros H. destruct (allWhiteSpace t) eqn:E; [|reflexivity].
  now apply allWhiteSpace_trim in E.
Qed.

(** The first fenced block of a text, when it is not blank. *)
Lemma codeBlockMatch_first_fence p tag t rest :
  hasBacktick p = false ->
  includes fence t = false ->
  trim t <> EmptyString ->
  codeBlockMatch (p ++ fenced tag t ++ rest) = Some (captured t).
Proof.
  intros Hp Hf Ht. rewrite (codeBlockMatch_skip _ _ Hp).
  apply codeBlockMatch_here. unfold fenced. rewrite !str_app_assoc.
  apply matchHere_fenced.
  change (spaceStar (String LF (t ++ closing ++ rest)))
    with (match spaceStar (t ++ closing ++ rest) with
          | Some g => Some g
          | None => afterSpaces (String LF (t ++ closing ++ rest))
          end).
  rewrite (spaceStar_body_rest _ rest Hf (nonblank _ Ht)).
  unfold captured. destruct (leadingRest t); [reflexivity|].
  cbn [afterSpaces]. now rewrite (lazyGroup_body_rest _ rest Hf).
Qed.

Lemma extract_first_fence p tag t rest :
  hasBacktick p = false ->
  includes fence t = false ->
  trim t <> EmptyString ->
  extractToonContent (p ++ fenced tag t ++ rest) = Some (trim t).
Proof.
  intros Hp Hf Ht. unfold extractToonContent.
  rewrite (codeBlockMatch_first_fence p tag t rest Hp Hf Ht).
  pose proof (captured_trim t) as Hc.
  destruct (captured t) as [|c g].
  - exfalso. apply Ht. rewrite <- Hc. reflexivity.
  - now rewrite Hc.
Qed.

End FirstFenceFacts.

(** X7.  When prose without backticks precedes a fenced block tagged
    [toon], [yaml] or untagged, whose interior has no fence marker and is
    not blank, the extractor returns the trimmed interior of that block,
    whatever follows the closing fence: later text and later fenced
    blocks are ignored. *)
Theorem first_fenced_block_wins
        (p : string) (tag : FenceTag) (t rest : string) :
  hasBacktick p = false ->
  Js.includes Parser.fence t = false ->
  Js.trim t <> EmptyString ->
  Parser.extractToonContent (p ++ fenced tag t ++ rest) = Some (Js.trim t).
Proof. apply extract_first_fence. Qed.

(** Two fenced blocks with prose around them. *)
Lemma first_fenced_block_wins_witness :
  Parser.extractToonContent
    ("Here: " ++ fenced TagYaml "x: 1" ++ " and " ++ fenced Untagged "y: 2")
  = Some (Js.trim "x: 1").
Proof.
  apply (first_fenced_block_wins "Here: " TagYaml "x: 1"
           (" and " ++ fenced Untagged "y: 2")).
  - reflexivity.
  - reflexivity.
  - vm_compute. discriminate.
Defined.

(* ================================================================= *)
(** ** What the extractor returns *)

Section ExtractorResults.
Import Js Parser.

Lemma trimEnd_idem s : trimEnd (trimEnd s) = trimEnd s.
Proof.
  induction s as [|c s IH]; [reflexivity|].
  cbn [trimEnd]. destruct (trimEnd s) as [|a r] eqn:E.
  - destruct (isWhiteSpace c) eqn:Hc; cbn [trimEnd]; [reflexivity|].
    now rewrite Hc.
  - cbn [trimEnd]. cbn [trimEnd] in IH. now rewrite IH.
Qed.

Lemma trimStart_trimEnd_head c r :
  isWhiteSpace c = false ->
  trimStart (trimEnd (String c r)) = trimEnd (String c r).
Proof.
  intros Hc. cbn [trimEnd].
  destruct (trimEnd r); [rewrite Hc|]; cbn [trimStart]; now rewrite Hc.
Qed.

Lemma trim_idem s : trim (trim s) = trim s.
Proof.
  unfold trim.
  destruct (trimStart_cases s) as [(-> & _) | (c & r & -> & Hc)];
    [reflexivity|].
  rewrite (trimStart_trimEnd_head _ _ Hc). apply trimEnd_idem.
Qed.

Lemma truthy_false s : truthy s = false -> s = EmptyString.
Proof. destruct s; [reflexivity | discriminate]. Qed.

Lemma codeBlockMatch_body_closing b :
  includes fence b = false -> codeBlockMatch (b ++ closing) = None.
Proof.
  induction b as [|c b IH]; intros H; [reflexivity|].
  pose proof (no_fence_across _ (includes_head _ _ H)) as Hh.
  apply includes_cons in H. destruct H as (_ & Hb).
  change (String c b ++ closing) with (String c (b ++ closing)) in *.
  cbn [codeBlockMatch]. unfold matchHere.
  unfold startsWith in Hh.
  destruct (stripPrefix fence (String c (b ++ closing))); [discriminate Hh|].
  now apply IH.
Qed.

Lemma trim_fencedWith tag t : trim (fencedWith tag t) = fencedWith tag t.
Proof.
  unfold trim.
  assert (E : fencedWith tag t
              = (fence ++ tag ++ nl ++ t ++ nl ++ "``")
                ++ String backtick EmptyString).
  { unfold fencedWith, closing. rewrite !str_app_assoc. reflexivity. }
  assert (S : trimStart (fencedWith tag t) = fencedWith tag t)
    by reflexivity.
  rewrite S, E. now apply trimEnd_app_nonspace.
Qed.

Lemma startsWith_app_false p s r :
  startsWith p s = false -> String.length p <= String.length s ->
  startsWith p (s ++ r) = false.
Proof.
  unfold startsWith. revert s. induction p as [|a p IH]; intros s.
  - discriminate.
  - destruct s as [|b s]; cbn [String.length]; [lia|].
    cbn [stripPrefix append]. destruct (Ascii.eqb a b); [|reflexivity].
    intros H Hl. apply IH; [exact H | lia].
Qed.

Lemma stripPrefix_short p s r :
  String.length s < String.length p ->
  testClass (fun a => Ascii.eqb a LF) p = false ->
  startsWith p (s ++ nl ++ r) = true -> False.
Proof.
  unfold startsWith. revert s.
  induction p as [|a p IH]; intros s; cbn [String.length]; [lia|].
  destruct s as [|b s]; cbn [String.length append stripPrefix testClass].
  - intros _ Hp. apply orb_false_iff in Hp. destruct Hp as (Ha & _).
    unfold nl. cbn [append stripPrefix]. rewrite Ha. discriminate.
  - intros Hl Hp. apply orb_false_iff in Hp. destruct Hp as (_ & Hp).
    destruct (Ascii.eqb a b); [|discriminate].
    apply IH; [lia | exact Hp].
Qed.

Lemma codeBlockMatch_foreign tag t :
  foreignTag tag = true ->
  includes fence (tag ++ nl ++ t) = false ->
  codeBlockMatch (fencedWith tag t) = None.
Proof.
  intros Htag Hf. destruct tag as [|c tag]; [discriminate Htag|].
  cbn [foreignTag] in Htag.
  apply andb_true_iff in Htag. destruct Htag as (Htag & Hy).
  apply andb_true_iff in Htag. destruct Htag as (Htag & Ht).
  apply andb_true_iff in Htag. destruct Htag as (Hw & Hb).
  apply negb_true_iff in Hw, Hb, Ht, Hy.
  pose proof (codeBlockMatch_body_closing _ Hf) as Hrest.
  assert (E : fencedWith (String c tag) t
              = String backtick (String backtick (String backtick
                  ((String c tag ++ nl ++ t) ++ closing)))).
  { unfold fencedWith. rewrite !str_app_assoc. reflexivity. }
  rewrite E. clear E.
  assert (Ht' : stripPrefix "toon" ((String c tag ++ nl ++ t) ++ closing)
                = None).
  { destruct (stripPrefix "toon" ((String c tag ++ nl ++ t) ++ closing))
      eqn:E1; [|reflexivity]. exfalso.
    destruct (Nat.le_gt_cases 4 (String.length (String c tag))) as [Hl | Hl].
    - pose proof (startsWith_app_false "toon" (String c tag)
                    ((nl ++ t) ++ closing) Ht Hl) as H.
      unfold startsWith in H. rewrite <- !str_app_assoc in E1.
      rewrite <- !str_app_assoc in H. now rewrite E1 in H.
    - apply (stripPrefix_short "toon" (String c tag) (t ++ closing));
        [exact Hl | reflexivity |].
      unfold startsWith. rewrite !str_app_assoc in E1. now rewrite E1. }
  assert (Hy' : stripPrefix "yaml" ((String c tag ++ nl ++ t) ++ closing)
                = None).
  { destruct (stripPrefix "yaml" ((String c tag ++ nl ++ t) ++ closing))
      eqn:E1; [|reflexivity]. exfalso.
    destruct (Nat.le_gt_cases 4 (String.length (String c tag))) as [Hl | Hl].
    - pose proof (startsWith_app_false "yaml" (String c tag)
                    ((nl ++ t) ++ closing) Hy Hl) as H.
      unfold startsWith in H. rewrite <- !str_app_assoc in E1.
      rewrite <- !str_app_assoc in H. now rewrite E1 in H.
    - apply (stripPrefix_short "yaml" (String c tag) (t ++ closing));
        [exact Hl | reflexivity |].
      unfold startsWith. rewrite !str_app_assoc in E1. now rewrite E1. }
  revert Hrest Ht' Hy'.
  change ((String c tag ++ nl ++ t) ++ closing)
    with (String c ((tag ++ nl ++ t) ++ closing)).
  generalize ((tag ++ nl ++ t) ++ closing). intros y Hrest Ht' Hy'.
  assert (A0 : afterFence (String c y) = None).
  { unfold afterFence. rewrite Ht', Hy'.
    change (spaceStar (String c y))
      with (if isWhiteSpace c
            then match spaceStar y with
                 | Some g => Some g
                 | None => afterSpaces (String c y)
                 end
            else afterSpaces (String c y)).
    rewrite Hw. cbn [afterSpaces]. now rewrite (space_not_LF _ Hw). }
  unfold backtick in *.
  assert (M0 : matchHere (String "`" (String "`" (String "`" (String c y))))
               = None).
  { unfold matchHere, fence. cbn -[afterFence]. exact A0. }
  assert (M1 : matchHere (String "`" (String "`" (String c y))) = None).
  { unfold matchHere, fence. cbn -[afterFence]. now rewrite Hb. }
  assert (M2 : matchHere (String "`" (String c y)) = None).
  { unfold matchHere, fence. cbn -[afterFence]. now rewrite Hb. }
  cbn [codeBlockMatch]. rewrite M0, M1, M2.
  cbn [codeBlockMatch] in Hrest. exact Hrest.
Qed.

End ExtractorResults.

(** X8.  The extractor returns none exactly for blank text: when the
    trimmed text is empty.  Any text with a character that is not white
    space yields some content (possibly the empty string). *)
Theorem extract_none_iff_blank (text : string) :
  Parser.extractToonContent text = None <-> Js.trim text = EmptyString.
Proof.
  split.
  - unfold Parser.extractToonContent.
    destruct (Parser.codeBlockMatch text) as [[|c g]|];
      try discriminate;
      destruct (Js.truthy (Js.trim text)) eqn:E; try discriminate;
      intros _; now apply truthy_false.
  - intros H.
    rewrite (extract_no_fence _ (allWhiteSpace_no_fence _ (trim_empty _ H))).
    now rewrite H.
Qed.

(** X9.  Whatever the extractor returns is trimmed: the content has no
    leading and no trailing white space, so trimming it again changes
    nothing. *)
Theorem extracted_content_is_trimmed (text content : string) :
  Parser.extractToonContent text = Some content ->
  Js.trim content = content.
Proof.
  unfold Parser.extractToonContent.
  destruct (Parser.codeBlockMatch text) as [[|c g]|];
    try (intros [= <-]; apply trim_idem);
    destruct (Js.truthy (Js.trim text)); try discriminate;
    intros [= <-]; apply trim_idem.
Qed.

(** A fenced block with blank lines around its content. *)
Lemma extracted_content_is_trimmed_witness :
  Js.trim "x: 1" = "x: 1".
Proof.
  apply (extracted_content_is_trimmed
           (fenced TagToon (Js.nl ++ "  x: 1 " ++ Js.nl)) "x: 1").
  vm_compute. reflexivity.
Defined.

(** X10.  A fence with a tag the expression does not know (one that
    starts with a character other than white space and a backtick, and
    does not start with [toon] or [yaml]: [json], [text], ...) is not
    unwrapped: when no further fence marker occurs inside, the extractor
    returns the whole text, fence markers and tag included. *)
Theorem foreign_fence_not_unwrapped (tag t : string) :
  foreignTag tag = true ->
  Js.includes Parser.fence (tag ++ Js.nl ++ t) = false ->
  Parser.codeBlockMatch (fencedWith tag t) = None
  /\ Parser.extractToonContent (fencedWith tag t) = Some (fencedWith tag t).
Proof.
  intros Htag Hf.
  pose proof (codeBlockMatch_foreign tag t Htag Hf) as Hm.
  split; [exact Hm|].
  unfold Parser.extractToonContent. rewrite Hm, trim_fencedWith.
  reflexivity.
Qed.

(** A block tagged [json]. *)
Lemma foreign_fence_not_unwrapped_witness :
  Parser.codeBlockMatch (fencedWith "json" "name: John") = None
  /\ Parser.extractToonContent (fencedWith "json" "name: John")
     = Some (fencedWith "json" "name: John").
Proof.
  apply (foreign_fence_not_unwrapped "json" "name: John").
  - reflexivity.
  - reflexivity.
Defined.

(* ================================================================= *)
(** ** Outcomes of the pipeline *)

Section PipelineOutcomes.
Import Js Parser.

Variables Value T Schema : Type.
Variable decode : string -> DecodeOptions -> Completion Value.
Variable schemaParse : Schema -> Value -> Completion T.
Variable stringify : Value -> string.

Lemma extract_fenced tag t :
  includes fence t = false ->
  trim t <> EmptyString ->
  extractToonContent (fenced tag t) = Some (trim t).
Proof.
  intros Hf Ht.
  pose proof (extract_first_fence EmptyString tag t EmptyString
                eq_refl Hf Ht) as H.
  cbn [append] in H. now rewrite str_app_nil_r in H.
Qed.

(** X11.  For a text without fence markers that is not blank, [parse]
    has the same outcome on the text in a fence tagged [toon], tagged
    [yaml] or untagged as on the bare text: the same value, or the same
    failure with the same message. *)
Theorem parse_fenced_as_unfenced
        (this : ToonOutputParser Schema) (tag : FenceTag) (t : string) :
  includes fence t = false ->
  trim t <> EmptyString ->
  parse decode schemaParse stringify this (fenced tag t)
  = parse decode schemaParse stringify this t.
Proof.
  intros Hf Ht. unfold parse.
  rewrite (extract_fenced tag t Hf Ht), (extract_no_fence _ Hf),
          (truthy_nonempty _ Ht).
  reflexivity.
Qed.

(** X12.  [parse] returns a value only when the extractor found
    non-empty content, the decoder accepted that content with the
    strictness of the parser, and the validator of the schema returned
    that very value for the decoded tree. *)
Theorem parse_returns_validated
        (this : ToonOutputParser Schema) (text : string) (v : T) :
  parse decode schemaParse stringify this text = Normal v ->
  exists content decoded,
    extractToonContent text = Some content
    /\ truthy content = true
    /\ decode content (mkDecodeOptions None (Some (optStrict (options this))))
       = Normal decoded
    /\ schemaParse (schema this) decoded = Normal v.
Proof.
  unfold parse, validate, decodeOptions.
  destruct (extractToonContent text) as [[|c r]|]; try discriminate.
  destruct (decode (String c r)
              (mkDecodeOptions None (Some (optStrict (options this)))))
    as [decoded | e] eqn:Hd; [|discriminate].
  destruct (schemaParse (schema this) decoded) as [v' | [m | m i | o]] eqn:Hv;
    try discriminate.
  intros [= ->]. exists (String c r), decoded. auto.
Qed.

(** X13.  When the decoder throws on the extracted content, [parse]
    fails with the decode failure, whatever the schema and its validator:
    the message starts with [Failed to decode TOON format: ], carries the
    message of a thrown error (the string conversion of any other thrown
    value), and ends with the extracted content under [TOON content:]. *)
Theorem parse_decode_failure
        (this : ToonOutputParser Schema) (text : string)
        (c : ascii) (r : string) (e : Thrown) :
  extractToonContent text = Some (String c r) ->
  decode (String c r) (decodeOptions this) = Throw e ->
  parse decode schemaParse stringify this text
  = Throw (JsError ("Failed to decode TOON format: " ++ errorText e
                    ++ nl ++ nl ++ "TOON content:" ++ nl ++ String c r))
  /\ failureKind
       (JsError ("Failed to decode TOON format: " ++ errorText e
                 ++ nl ++ nl ++ "TOON content:" ++ nl ++ String c r))
     = Some DecodeFailure.
Proof.
  intros He Hd. split; [|reflexivity].
  unfold parse. rewrite He, Hd. reflexivity.
Qed.

End PipelineOutcomes.

(** The test text in a [toon] fence and bare. *)
Lemma parse_fenced_as_unfenced_witness :
  Parser.parse spyDecode acceptAll (fun _ => EmptyString)
    (Parser.new tt (Parser.mkOptions None None))
    (fenced TagToon ("name: John" ++ Js.nl ++ "age: 30"))
  = Parser.parse spyDecode acceptAll (fun _ => EmptyString)
      (Parser.new tt (Parser.mkOptions None None))
      ("name: John" ++ Js.nl ++ "age: 30").
Proof.
  apply (parse_fenced_as_unfenced (string * Parser.DecodeOptions)
           (string * Parser.DecodeOptions) unit spyDecode acceptAll
           (fun _ => EmptyString)
           (Parser.new tt (Parser.mkOptions None None)) TagToon
           ("name: John" ++ Js.nl ++ "age: 30")).
  - reflexivity.
  - vm_compute. discriminate.
Defined.

(** A parse that succeeds. *)
Lemma parse_returns_validated_witness :
  exists content decoded,
    Parser.extractToonContent "a: 1" = Some content
    /\ Js.truthy content = true
    /\ spyDecode content
         (Parser.mkDecodeOptions None
            (Some (Parser.optStrict
                     (Parser.options
                        (Parser.new tt (Parser.mkOptions None None))))))
       = Parser.Normal decoded
    /\ acceptAll
         (Parser.schema (Parser.new tt (Parser.mkOptions None None))) decoded
       = Parser.Normal ("a: 1", Parser.mkDecodeOptions None (Some true)).
Proof.
  apply (parse_returns_validated (string * Parser.DecodeOptions)
           (string * Parser.DecodeOptions) unit spyDecode acceptAll
           (fun _ => EmptyString)
           (Parser.new tt (Parser.mkOptions None None)) "a: 1"
           ("a: 1", Parser.mkDecodeOptions None (Some true))).
  reflexivity.
Defined.

(** A decoder that rejects the text. *)
Lemma parse_decode_failure_witness :
  Parser.parse ageDecode ageParse showTree
    (Parser.new tt (Parser.mkOptions None None)) "{]"
  = Parser.Throw
      (Parser.JsError
         ("Failed to decode TOON format: "
          ++ Parser.errorText (Parser.JsError "syntax error")
          ++ Js.nl ++ Js.nl ++ "TOON content:" ++ Js.nl ++ "{]"))
  /\ Parser.failureKind
       (Parser.JsError
          ("Failed to decode TOON format: "
           ++ Parser.errorText (Parser.JsError "syntax error")
           ++ Js.nl ++ Js.nl ++ "TOON content:" ++ Js.nl ++ "{]"))
     = Some Parser.DecodeFailure.
Proof.
  apply (parse_decode_failure Tree nat unit ageDecode ageParse showTree
           (Parser.new tt (Parser.mkOptions None None)) "{]"
           "{"%char "]" (Parser.JsError "syntax error")).
  - reflexivity.
  - reflexivity.
Defined.

(* ================================================================= *)
(** ** The instructions read back by the extractor *)

Lemma instructions_as_fenced schema :
  Synth.zodSchemaToToonInstructions schema
  = (Synth.rulesText
     ++ Synth.constraintsText
          (Synth.collectEnumConstraints (getSchemaShape schema) EmptyString)
     ++ Js.nl ++ Js.nl ++ "Expected structure:" ++ Js.nl)
    ++ fenced TagToon (Synth.generateToonExample (getSchemaShape schema) 0)
    ++ (Js.nl ++ Js.nl
        ++ "Respond ONLY with the TOON-formatted data inside a code block.").
Proof.
  rewrite instructions_head_example.
  unfold instructionsHead, fenced, Synth.closingText, Parser.closing,
    Parser.fence, tagText.
  change "```toon" with ("```" ++ "toon").
  generalize (Synth.generateToonExample (getSchemaShape schema) 0)
             (Synth.constraintsText
                (Synth.collectEnumConstraints (getSchemaShape schema)
                   EmptyString))
             Synth.rulesText "Expected structure:" "```" "toon" Js.nl
             "Respond ONLY with the TOON-formatted data inside a code block.".
  intros. rewrite !str_app_assoc. reflexivity.
Qed.

(** X14.  The extractor of the parser reads the example back out of the
    instructions of the synthesizer: when the Field Constraints text has
    no backtick and the example has no fence marker and is not blank, the
    content extracted from the whole instruction text is the example,
    trimmed.  A reply that repeats the instructions is therefore decoded
    as the example. *)
Theorem instructions_example_extracted (schema : ZodType) :
  hasBacktick
    (Synth.constraintsText
       (Synth.collectEnumConstraints (getSchemaShape schema) EmptyString))
  = false ->
  Js.includes Parser.fence
    (Synth.generateToonExample (getSchemaShape schema) 0) = false ->
  Js.trim (Synth.generateToonExample (getSchemaShape schema) 0)
  <> EmptyString ->
  Parser.extractToonContent (Synth.zodSchemaToToonInstructions schema)
  = Some (Js.trim (Synth.generateToonExample (getSchemaShape schema) 0)).
Proof.
  intros Hc Hf Ht. rewrite instructions_as_fenced.
  apply extract_first_fence; [| exact Hf | exact Ht].
  rewrite !hasBacktick_app, Hc. reflexivity.
Qed.

(** The schema of the synthesizer's own test with a table. *)
Lemma instructions_example_extracted_witness :
  Parser.extractToonContent
    (Synth.zodSchemaToToonInstructions
       (ZodObject [("users",
                    ZodArray (ZodObject [("id", ZodNumber);
                                         ("name", ZodString)]))]))
  = Some
      (Js.trim
         (Synth.generateToonExample
            (getSchemaShape
               (ZodObject [("users",
                            ZodArray (ZodObject [("id", ZodNumber);
                                                 ("name", ZodString)]))]))
            0)).
Proof.
  apply (instructions_example_extracted
           (ZodObject [("users",
                        ZodArray (ZodObject [("id", ZodNumber);
                                             ("name", ZodString)]))])).
  - reflexivity.
  - reflexivity.
  - vm_compute. discriminate.
Defined.

(* ================================================================= *)
(** ** Tables with any number of columns, in both revisions *)

(** X15.  A field that is an array of objects, at any depth of nested
    objects, stands in the instructions as three whole lines: the
    indentation, the key and the header [2]{...}: with all column names
    joined by commas, in order; then, two spaces deeper, the example
    values of the columns joined by commas; then the alternate example
    values, likewise. *)
Theorem table_field_lines
        (schema : ZodType) (depth : nat) (key : string)
        (cols : list (string * SchemaShape)) :
  FieldAt (getSchemaShape schema) depth key (SArray (SObject cols)) ->
  exists pre post,
    Synth.zodSchemaToToonInstructions schema
    = pre
      ++ (Js.repeat "  " depth ++ key
          ++ "[2]{" ++ Js.join "," (map fst cols) ++ "}:" ++ Js.nl
          ++ Js.repeat "  " depth ++ "  "
          ++ Js.join ","
               (map (fun kv => Synth.getExampleValue (snd kv) false) cols)
          ++ Js.nl
          ++ Js.repeat "  " depth ++ "  "
          ++ Js.join ","
               (map (fun kv => Synth.getExampleValue (snd kv) true) cols))
      ++ post
    /\ (exists r, pre = r ++ Js.nl) /\ (exists r, post = Js.nl ++ r).
Proof.
  intros H.
  destruct (instructions_contain_field _ _ _ _ H) as (pre & post & E & Hp).
  exists pre, post. split; [|exact Hp]. rewrite E.
  unfold fieldLines. cbn [snd fst Js.join Synth.generateToonExample].
  unfold Synth.tableExample. cbv zeta.
  generalize (Js.join "," (map fst cols))
             (Js.join ","
                (map (fun kv => Synth.getExampleValue (snd kv) false) cols))
             (Js.join ","
                (map (fun kv => Synth.getExampleValue (snd kv) true) cols))
             (Js.repeat "  " depth) Js.nl.
  intros. rewrite !str_app_assoc. reflexivity.
Qed.

(** A table with three columns inside a nested object. *)
Lemma table_field_lines_witness :
  exists pre post,
    Synth.zodSchemaToToonInstructions
      (ZodObject
         [("company",
           ZodObject
             [("employees",
               ZodArray (ZodObject [("id", ZodNumber);
                                    ("name", ZodString);
                                    ("role", ZodString)]))])])
    = pre
      ++ (Js.repeat "  " 1 ++ "employees"
          ++ "[2]{"
          ++ Js.join ","
               (map fst [("id", SNumber); ("name", SString);
                         ("role", SString)])
          ++ "}:" ++ Js.nl
          ++ Js.repeat "  " 1 ++ "  "
          ++ Js.join ","
               (map (fun kv => Synth.getExampleValue (snd kv) false)
                    [("id", SNumber); ("name", SString); ("role", SString)])
          ++ Js.nl
          ++ Js.repeat "  " 1 ++ "  "
          ++ Js.join ","
               (map (fun kv => Synth.getExampleValue (snd kv) true)
                    [("id", SNumber); ("name", SString); ("role", SString)]))
      ++ post
    /\ (exists r, pre = r ++ Js.nl) /\ (exists r, post = Js.nl ++ r).
Proof.
  apply (table_field_lines
           (ZodObject
              [("company",
                ZodObject
                  [("employees",
                    ZodArray (ZodObject [("id", ZodNumber);
                                         ("name", ZodString);
                                         ("role", ZodString)]))])])
           1 "employees"
           [("id", SNumber); ("name", SString); ("role", SString)]).
  simpl. eapply field_below.
  - simpl. left. reflexivity.
  - apply field_here. simpl. left. reflexivity.
Defined.

Section LegacyFacts.
Import Js.

Lemma legacy_generateToonExample_object fields indent :
  Legacy.generateToonExample (SObject fields) indent
  = join nl (flat_map (legacyFieldLines indent) fields).
Proof.
  simpl. f_equal.
  induction fields as [|[key fieldShape] rest IH]; [reflexivity|].
  rewrite IH. destruct fieldShape; reflexivity.
Qed.

Lemma legacyFieldLines_nonempty indent kv : legacyFieldLines indent kv <> [].
Proof. unfold legacyFieldLines. destruct (snd kv); discriminate. Qed.

Lemma legacy_example_contains_field shape depth key s :
  FieldAt shape depth key s ->
  forall indent, exists pre post,
    Legacy.generateToonExample shape indent
    = pre ++ join nl (legacyFieldLines (indent + depth) (key, s)) ++ post
    /\ lineStart pre /\ lineEnd post.
Proof.
  induction 1 as [fields key s Hin
                 | fields k inner depth key s Hin _ IH]; intros indent.
  - apply in_split in Hin. destruct Hin as (l1 & l2 & ->).
    rewrite legacy_generateToonExample_object, flat_map_app. cbn [flat_map].
    destruct (join_block nl (flat_map (legacyFieldLines indent) l1)
                (legacyFieldLines indent (key, s))
                (flat_map (legacyFieldLines indent) l2)
                (legacyFieldLines_nonempty _ _)) as (p & q & Hj & Hp & Hq).
    exists p, q. rewrite Nat.add_0_r. split; [exact Hj|]. split; [|exact Hq].
    destruct Hp as [(_ & ->) | (_ & Hr)]; [now left | now right].
  - apply in_split in Hin. destruct Hin as (l1 & l2 & ->).
    destruct (IH (indent + 1)) as (pre & post & Hex & Hpre & Hpost).
    rewrite legacy_generateToonExample_object, flat_map_app. cbn [flat_map].
    change (legacyFieldLines indent (k, SObject inner))
      with (List.app [repeat "  " indent ++ k ++ ":"]
              [Legacy.generateToonExample (SObject inner) (indent + 1)]).
    rewrite <- app_assoc, app_assoc.
    destruct (join_block nl
                (List.app (flat_map (legacyFieldLines indent) l1)
                   [repeat "  " indent ++ k ++ ":"])
                [Legacy.generateToonExample (SObject inner) (indent + 1)]
                (flat_map (legacyFieldLines indent) l2))
      as (p & q & Hj & Hp & Hq); [discriminate|].
    destruct Hp as [(Hnil & _) | (_ & Hr)];
      [now destruct (flat_map (legacyFieldLines indent) l1)|].
    exists (p ++ pre), (post ++ q). split; [|split].
    + rewrite Hj. cbn [join]. rewrite Hex.
      replace (indent + S depth) with (indent + 1 + depth) by lia.
      rewrite !str_app_assoc. reflexivity.
    + right. now apply lineStart_app.
    + now apply lineEnd_app.
Qed.

Lemma legacy_instructions_contain_field schema depth key s :
  FieldAt (getSchemaShape schema) depth key s ->
  exists pre post,
    Legacy.zodSchemaToToonInstructions schema
    = pre ++ join nl (legacyFieldLines depth (key, s)) ++ post
    /\ (exists r, pre = r ++ nl) /\ (exists r, post = nl ++ r).
Proof.
  intros H.
  destruct (legacy_example_contains_field _ _ _ _ H 0)
    as (pre & post & Hex & Hpre & Hpost).
  cbn [Nat.add] in Hex.
  exists ((Legacy.rulesText ++ nl ++ nl ++ "Expected structure:" ++ nl
           ++ "```toon" ++ nl) ++ pre), (post ++ Synth.closingText).
  split; [|split].
  - unfold Legacy.zodSchemaToToonInstructions. cbv zeta. rewrite Hex.
    generalize (join nl (legacyFieldLines depth (key, s)))
               Legacy.rulesText Synth.closingText
               "Expected structure:" "```toon" nl.
    intros. rewrite !str_app_assoc. reflexivity.
  - apply lineStart_app; [|exact Hpre].
    eexists. rewrite <- !str_app_assoc. reflexivity.
  - destruct Hpost as [-> | (r & ->)].
    + eexists. reflexivity.
    + exists (r ++ Synth.closingText). now rewrite str_app_assoc.
Qed.

End LegacyFacts.

(** X16.  In the revision with the placeholder, a field that is an array
    of objects stands in the instructions as three whole lines like those
    of the other revision, except that the header carries the placeholder
    [N] where the other one writes the row count 2. *)
Theorem legacy_table_field_lines
        (schema : ZodType) (depth : nat) (key : string)
        (cols : list (string * SchemaShape)) :
  FieldAt (getSchemaShape schema) depth key (SArray (SObject cols)) ->
  exists pre post,
    Legacy.zodSchemaToToonInstructions schema
    = pre
      ++ (Js.repeat "  " depth ++ key
          ++ "[N]{" ++ Js.join "," (map fst cols) ++ "}:" ++ Js.nl
          ++ Js.repeat "  " depth ++ "  "
          ++ Js.join ","
               (map (fun kv => Legacy.getExampleValue (snd kv) false) cols)
          ++ Js.nl
          ++ Js.repeat "  " depth ++ "  "
          ++ Js.join ","
               (map (fun kv => Legacy.getExampleValue (snd kv) true) cols))
      ++ post
    /\ (exists r, pre = r ++ Js.nl) /\ (exists r, post = Js.nl ++ r).
Proof.
  intros H.
  destruct (legacy_instructions_contain_field _ _ _ _ H)
    as (pre & post & E & Hp).
  exists pre, post. split; [|exact Hp]. rewrite E.
  unfold legacyFieldLines. cbn [snd fst Js.join Legacy.generateToonExample].
  unfold Legacy.tableExample. cbv zeta.
  generalize (Js.join "," (map fst cols))
             (Js.join ","
                (map (fun kv => Legacy.getExampleValue (snd kv) false) cols))
             (Js.join ","
                (map (fun kv => Legacy.getExampleValue (snd kv) true) cols))
             (Js.repeat "  " depth) Js.nl.
  intros. rewrite !str_app_assoc. reflexivity.
Qed.

(** The table of the parser's own test. *)
Lemma legacy_table_field_lines_witness :
  exists pre post,
    Legacy.zodSchemaToToonInstructions
      (ZodObject [("items",
                   ZodArray (ZodObject [("id", ZodNumber);
                                        ("value", ZodString)]))])
    = pre
      ++ (Js.repeat "  " 0 ++ "items"
          ++ "[N]{"
          ++ Js.join "," (map fst [("id", SNumber); ("value", SString)])
          ++ "}:" ++ Js.nl
          ++ Js.repeat "  " 0 ++ "  "
          ++ Js.join ","
               (map (fun kv => Legacy.getExampleValue (snd kv) false)
                    [("id", SNumber); ("value", SString)])
          ++ Js.nl
          ++ Js.repeat "  " 0 ++ "  "
          ++ Js.join ","
               (map (fun kv => Legacy.getExampleValue (snd kv) true)
                    [("id", SNumber); ("value", SString)]))
      ++ post
    /\ (exists r, pre = r ++ Js.nl) /\ (exists r, post = Js.nl ++ r).
Proof.
  apply (legacy_table_field_lines
           (ZodObject [("items",
                        ZodArray (ZodObject [("id", ZodNumber);
                                             ("value", ZodString)]))])
           0 "items" [("id", SNumber); ("value", SString)]).
  simpl. apply field_here. simpl. left. reflexivity.
Defined.

(** X17.  In the revision with the placeholder, a field that is an array
    whose element is not an object stands on one line with the
    placeholder [N] and with a comma and a space between the two example
    values. *)
Theorem legacy_primitive_array_field_line
        (schema : ZodType) (depth : nat) (key : string)
        (element : SchemaShape) :
  isObjectShape element = false ->
  FieldAt (getSchemaShape schema) depth key (SArray element) ->
  exists pre post,
    Legacy.zodSchemaToToonInstructions schema
    = pre
      ++ (Js.repeat "  " depth ++ key ++ "[N]: "
          ++ Legacy.getExampleValue element false ++ ", "
          ++ Legacy.getExampleValue element true)
      ++ post
    /\ (exists r, pre = r ++ Js.nl) /\ (exists r, post = Js.nl ++ r).
Proof.
  intros Ho H.
  destruct (legacy_instructions_contain_field _ _ _ _ H)
    as (pre & post & E & Hp).
  exists pre, post. split; [|exact Hp]. rewrite E.
  destruct element; try discriminate; reflexivity.
Qed.

(** An array of numbers. *)
Lemma legacy_primitive_array_field_line_witness :
  exists pre post,
    Legacy.zodSchemaToToonInstructions
      (ZodObject [("scores", ZodArray ZodNumber)])
    = pre
      ++ (Js.repeat "  " 0 ++ "scores" ++ "[N]: "
          ++ Legacy.getExampleValue SNumber false ++ ", "
          ++ Legacy.getExampleValue SNumber true)
      ++ post
    /\ (exists r, pre = r ++ Js.nl) /\ (exists r, post = Js.nl ++ r).
Proof.
  apply (legacy_primitive_array_field_line
           (ZodObject [("scores", ZodArray ZodNumber)]) 0 "scores" SNumber).
  - reflexivity.
  - simpl. apply field_here. simpl. left. reflexivity.
Defined.

(** X18.  In the revision with the placeholder, an enum field with at
    least one literal stands on a line with its first literal always
    wrapped in quote characters, whether or not the literal has a special
    character. *)
Theorem legacy_enum_field_line
        (schema : ZodType) (depth : nat) (key v0 : string)
        (rest : list string) :
  FieldAt (getSchemaShape schema) depth key (SEnum (Some (v0 :: rest))) ->
  exists pre post,
    Legacy.zodSchemaToToonInstructions schema
    = pre
      ++ (Js.repeat "  " depth ++ key ++ ": " ++ Js.dq ++ v0 ++ Js.dq)
      ++ post
    /\ (exists r, pre = r ++ Js.nl) /\ (exists r, post = Js.nl ++ r).
Proof.
  intros H.
  destruct (legacy_instructions_contain_field _ _ _ _ H)
    as (pre & post & E & Hp).
  exists pre, post. split; [|exact Hp]. rewrite E. reflexivity.
Qed.

(** The role of the synthesizer's own test. *)
Lemma legacy_enum_field_line_witness :
  exists pre post,
    Legacy.zodSchemaToToonInstructions
      (ZodObject [("role", ZodEnum ["admin"; "user"; "guest"])])
    = pre
      ++ (Js.repeat "  " 0 ++ "role" ++ ": " ++ Js.dq ++ "admin" ++ Js.dq)
      ++ post
    /\ (exists r, pre = r ++ Js.nl) /\ (exists r, post = Js.nl ++ r).
Proof.
  apply (legacy_enum_field_line
           (ZodObject [("role", ZodEnum ["admin"; "user"; "guest"])])
           0 "role" "admin" ["user"; "guest"]).
  simpl. apply field_here. simpl. left. reflexivity.
Defined.

Lemma examples_agree_without_arrays_enums shape :
  noArrayNoEnum shape = true ->
  forall indent,
    Legacy.generateToonExample shape indent
    = Synth.generateToonExample shape indent.
Proof.
  induction shape as [fields IH | element IH | | | | | vs]
    using shape_nested_ind; intros Hn indent;
    try reflexivity; try discriminate Hn.
  rewrite legacy_generateToonExample_object, generateToonExample_object.
  f_equal. cbn [noArrayNoEnum] in Hn.
  induction IH as [|[key s] rest Hs _ IHrest]; [reflexivity|].
  apply andb_true_iff in Hn. destruct Hn as (Hs' & Hrest).
  cbn [flat_map snd] in *. rewrite (IHrest Hrest). f_equal.
  unfold legacyFieldLines, fieldLines. cbn [fst snd].
  destruct s; try discriminate Hs'; try reflexivity.
  now rewrite (Hs Hs').
Qed.

(** X19.  The two revisions of the synthesizer differ in arrays and
    enums only: for a schema whose shape has no array and no enum at any
    depth, both generate the same example, at every indentation. *)
Theorem revisions_agree_without_arrays_enums
        (schema : ZodType) (indent : nat) :
  noArrayNoEnum (getSchemaShape schema) = true ->
  Legacy.generateToonExample (getSchemaShape schema) indent
  = Synth.generateToonExample (getSchemaShape schema) indent.
Proof.
  intros H. now apply examples_agree_without_arrays_enums.
Qed.

(** The nested objects of the synthesizer's own test. *)
Lemma revisions_agree_without_arrays_enums_witness :
  Legacy.generateToonExample
    (getSchemaShape
       (ZodObject
          [("user",
            ZodObject [("name", ZodString);
                       ("address", ZodObject [("city", ZodString)])])]))
    0
  = Synth.generateToonExample
      (getSchemaShape
         (ZodObject
            [("user",
              ZodObject [("name", ZodString);
                         ("address", ZodObject [("city", ZodString)])])]))
      0.
Proof.
  apply (revisions_agree_without_arrays_enums
           (ZodObject
              [("user",
                ZodObject [("name", ZodString);
                           ("address", ZodObject [("city", ZodString)])])])
           0).
  reflexivity.
Defined.

(* ================================================================= *)
(** ** A fenced block whose last line is white space *)

Section BlankLastLine.
Import Js Parser.

Variables Value T Schema : Type.
Variable decode : string -> DecodeOptions -> Completion Value.
Variable schemaParse : Schema -> Value -> Completion T.
Variable stringify : Value -> string.

Lemma leadingRest_suffix_blank w g :
  allWhiteSpace w = true -> leadingRest w = Some g ->
  allWhiteSpace g = true.
Proof.
  revert g. induction w as [|a w IH]; intros g; cbn [leadingRest allWhiteSpace];
    [discriminate|].
  intros H. apply andb_true_iff in H. destruct H as (Ha & Hw). rewrite Ha.
  destruct (leadingRest w) as [g'|].
  - intros [= <-]. now apply IH.
  - destruct (Ascii.eqb a LF); [|discriminate]. now intros [= <-].
Qed.

Lemma captured_blank_last_line w c :
  allWhiteSpace w = true ->
  isWhiteSpace c = true ->
  Ascii.eqb c LF = false ->
  captured (w ++ String c EmptyString) <> EmptyString
  /\ allWhiteSpace (captured (w ++ String c EmptyString)) = true.
Proof.
  intros Hw Hc Hn. unfold captured.
  assert (Hall : allWhiteSpace (w ++ String c EmptyString) = true).
  { apply allWhiteSpace_app; [exact Hw|]. cbn [allWhiteSpace].
    now rewrite Hc. }
  destruct (leadingRest (w ++ String c EmptyString)) as [g|] eqn:E.
  - split; [|exact (leadingRest_suffix_blank _ _ Hall E)].
    clear Hall. revert g E. induction w as [|a w IH]; intros g.
    + cbn [append leadingRest]. rewrite Hc, Hn. discriminate.
    + cbn [append leadingRest allWhiteSpace] in *.
      apply andb_true_iff in Hw. destruct Hw as (Ha & Hw). rewrite Ha.
      destruct (leadingRest (w ++ String c EmptyString)) as [g'|].
      * intros [= <-]. now apply IH.
      * destruct (Ascii.eqb a LF); [|discriminate]. intros [= <-].
        destruct w; discriminate.
  - split; [destruct w; discriminate | exact Hall].
Qed.

(** X20.  When the interior of a fenced block is white space whose last
    line is not empty (it ends in a white-space character other than a
    line feed), the capture is that last line, the extractor returns its
    trimmed form, the empty string, and [parse] fails with the extraction
    failure, whatever the decoder and the validator are. *)
Theorem blank_last_line_extraction_failure
        (this : ToonOutputParser Schema) (tag : FenceTag)
        (w : string) (c : ascii) :
  allWhiteSpace w = true ->
  isWhiteSpace c = true ->
  Ascii.eqb c LF = false ->
  extractToonContent (fenced tag (w ++ String c EmptyString))
  = Some EmptyString
  /\ parse decode schemaParse stringify this
       (fenced tag (w ++ String c EmptyString))
     = Throw (JsError extractionMessage).
Proof.
  intros Hw Hc Hn.
  destruct (captured_blank_last_line w c Hw Hc Hn) as (Hne & Hall).
  assert (Hf : includes fence (w ++ String c EmptyString) = false).
  { apply allWhiteSpace_no_fence, allWhiteSpace_app; [exact Hw|].
    cbn [allWhiteSpace]. now rewrite Hc. }
  assert (He : extractToonContent (fenced tag (w ++ String c EmptyString))
               = Some EmptyString).
  { unfold extractToonContent. rewrite (codeBlockMatch_fenced tag _ Hf).
    destruct (captured (w ++ String c EmptyString)) as [|a g] eqn:E;
      [congruence|].
    now rewrite (allWhiteSpace_trim _ Hall). }
  split; [exact He|]. unfold parse. now rewrite He.
Qed.

End BlankLastLine.

(** A [toon] fence around a line of two spaces. *)
Lemma blank_last_line_extraction_failure_witness :
  Parser.extractToonContent (fenced TagToon (" " ++ String " " EmptyString))
  = Some EmptyString
  /\ Parser.parse spyDecode acceptAll (fun _ => EmptyString)
       (Parser.new tt (Parser.mkOptions None None))
       (fenced TagToon (" " ++ String " " EmptyString))
     = Parser.Throw (Parser.JsError Parser.extractionMessage).
Proof.
  apply (blank_last_line_extraction_failure
           (string * Parser.DecodeOptions) (string * Parser.DecodeOptions)
           unit spyDecode acceptAll (fun _ => EmptyString)
           (Parser.new tt (Parser.mkOptions None None)) TagToon " "
           " "%char).
  - reflexivity.
  - reflexivity.
  - reflexivity.
Defined.

(* ================================================================= *)
(** ** The table of an array-of-objects field, in both revisions *)

Section TableBlock.
Import Js.

Lemma table_block indent key f1 s1 f2 s2 :
  fieldLines indent (key, SArray (SObject [(f1, s1); (f2, s2)]))
  = [repeat "  " indent ++ key ++ "[2]{" ++ f1 ++ "," ++ f2 ++ "}:" ++ nl
     ++ repeat "  " indent ++ "  "
     ++ Synth.getExampleValue s1 false ++ ","
     ++ Synth.getExampleValue s2 false ++ nl
     ++ repeat "  " indent ++ "  "
     ++ Synth.getExampleValue s1 true ++ ","
     ++ Synth.getExampleValue s2 true].
Proof.
  unfold fieldLines. cbn [snd fst Synth.generateToonExample].
  unfold Synth.tableExample. cbn [map fst snd join].
  generalize (Synth.getExampleValue s1 false) (Synth.getExampleValue s2 false)
             (Synth.getExampleValue s1 true) (Synth.getExampleValue s2 true)
             (repeat "  " indent) nl.
  intros. f_equal. rewrite !str_app_assoc. reflexivity.
Qed.

Lemma legacy_table_block indent key f1 s1 f2 s2 :
  legacyFieldLines indent (key, SArray (SObject [(f1, s1); (f2, s2)]))
  = [repeat "  " indent ++ key ++ "[N]{" ++ f1 ++ "," ++ f2 ++ "}:" ++ nl
     ++ repeat "  " indent ++ "  "
     ++ Legacy.getExampleValue s1 false ++ ","
     ++ Legacy.getExampleValue s2 false ++ nl
     ++ repeat "  " indent ++ "  "
     ++ Legacy.getExampleValue s1 true ++ ","
     ++ Legacy.getExampleValue s2 true].
Proof.
  unfold legacyFieldLines. cbn [snd fst Legacy.generateToonExample].
  unfold Legacy.tableExample. cbn [map fst snd join].
  generalize (Legacy.getExampleValue s1 false)
             (Legacy.getExampleValue s2 false)
             (Legacy.getExampleValue s1 true) (Legacy.getExampleValue s2 true)
             (repeat "  " indent) nl.
  intros. f_equal. rewrite !str_app_assoc. reflexivity.
Qed.

Lemma legacy_instructions_head_example schema :
  Legacy.zodSchemaToToonInstructions schema
  = (Legacy.rulesText ++ nl ++ nl ++ "Expected structure:" ++ nl
     ++ "```toon" ++ nl)
    ++ Legacy.generateToonExample (getSchemaShape schema) 0
    ++ Synth.closingText.
Proof.
  unfold Legacy.zodSchemaToToonInstructions. cbv zeta.
  generalize (Legacy.generateToonExample (getSchemaShape schema) 0)
             Legacy.rulesText Synth.closingText
             "Expected structure:" "```toon" nl.
  intros. rewrite !str_app_assoc. reflexivity.
Qed.

End TableBlock.

(** C3, as amended.  When the shape of a schema is an object with a field
    that is an array of objects with the fields f1 and f2, in this order,
    the instructions are: the head, the lines of the fields before it,
    the lines of the table, the lines of the fields after it, and the
    closing text, joined by line feeds.  The lines of the table are the
    key directly followed by the header, then exactly two rows: the two
    example values and the two alternate example values, each row two
    spaces deep and joined by a comma.  The header is [2]{f1,f2}: in the
    revision with field constraints and [N]{f1,f2}: in the revision with
    the placeholder.  The same holds for the example of such an object at
    any indentation, hence for nested objects. *)
Theorem table_header_and_two_rows
        (schema : ZodType) (before after : list (string * SchemaShape))
        (key f1 f2 : string) (s1 s2 : SchemaShape) :
  getSchemaShape schema
  = SObject
      (List.app before
         ((key, SArray (SObject [(f1, s1); (f2, s2)])) :: after)) ->
  Synth.zodSchemaToToonInstructions schema
  = instructionsHead schema
    ++ Js.join Js.nl
         (List.app (flat_map (fieldLines 0) before)
            ((key ++ "[2]{" ++ f1 ++ "," ++ f2 ++ "}:" ++ Js.nl
              ++ "  " ++ Synth.getExampleValue s1 false ++ ","
              ++ Synth.getExampleValue s2 false ++ Js.nl
              ++ "  " ++ Synth.getExampleValue s1 true ++ ","
              ++ Synth.getExampleValue s2 true)
               :: flat_map (fieldLines 0) after))
    ++ Synth.closingText
  /\ Legacy.zodSchemaToToonInstructions schema
     = (Legacy.rulesText ++ Js.nl ++ Js.nl ++ "Expected structure:" ++ Js.nl
        ++ "```toon" ++ Js.nl)
       ++ Js.join Js.nl
            (List.app (flat_map (legacyFieldLines 0) before)
               ((key ++ "[N]{" ++ f1 ++ "," ++ f2 ++ "}:" ++ Js.nl
                 ++ "  " ++ Legacy.getExampleValue s1 false ++ ","
                 ++ Legacy.getExampleValue s2 false ++ Js.nl
                 ++ "  " ++ Legacy.getExampleValue s1 true ++ ","
                 ++ Legacy.getExampleValue s2 true)
                  :: flat_map (legacyFieldLines 0) after))
       ++ Synth.closingText
  /\ (forall indent,
         Synth.generateToonExample
           (SObject
              (List.app before
                 ((key, SArray (SObject [(f1, s1); (f2, s2)])) :: after)))
           indent
         = Js.join Js.nl
             (List.app (flat_map (fieldLines indent) before)
                ((Js.repeat "  " indent ++ key
                  ++ "[2]{" ++ f1 ++ "," ++ f2 ++ "}:" ++ Js.nl
                  ++ Js.repeat "  " indent ++ "  "
                  ++ Synth.getExampleValue s1 false ++ ","
                  ++ Synth.getExampleValue s2 false ++ Js.nl
                  ++ Js.repeat "  " indent ++ "  "
                  ++ Synth.getExampleValue s1 true ++ ","
                  ++ Synth.getExampleValue s2 true)
                   :: flat_map (fieldLines indent) after)))
  /\ (forall indent,
         Legacy.generateToonExample
           (SObject
              (List.app before
                 ((key, SArray (SObject [(f1, s1); (f2, s2)])) :: after)))
           indent
         = Js.join Js.nl
             (List.app (flat_map (legacyFieldLines indent) before)
                ((Js.repeat "  " indent ++ key
                  ++ "[N]{" ++ f1 ++ "," ++ f2 ++ "}:" ++ Js.nl
                  ++ Js.repeat "  " indent ++ "  "
                  ++ Legacy.getExampleValue s1 false ++ ","
                  ++ Legacy.getExampleValue s2 false ++ Js.nl
                  ++ Js.repeat "  " indent ++ "  "
                  ++ Legacy.getExampleValue s1 true ++ ","
                  ++ Legacy.getExampleValue s2 true)
                   :: flat_map (legacyFieldLines indent) after))).
Proof.
  intros H.
  assert (HS : forall indent,
             Synth.generateToonExample
               (SObject
                  (List.app before
                     ((key, SArray (SObject [(f1, s1); (f2, s2)])) :: after)))
               indent
             = Js.join Js.nl
                 (List.app (flat_map (fieldLines indent) before)
                    (List.app
                       (fieldLines indent
                          (key, SArray (SObject [(f1, s1); (f2, s2)])))
                       (flat_map (fieldLines indent) after)))).
  { intros indent. rewrite generateToonExample_object, flat_map_app.
    reflexivity. }
  assert (HL : forall indent,
             Legacy.generateToonExample
               (SObject
                  (List.app before
                     ((key, SArray (SObject [(f1, s1); (f2, s2)])) :: after)))
               indent
             = Js.join Js.nl
                 (List.app (flat_map (legacyFieldLines indent) before)
                    (List.app
                       (legacyFieldLines indent
                          (key, SArray (SObject [(f1, s1); (f2, s2)])))
                       (flat_map (legacyFieldLines indent) after)))).
  { intros indent. rewrite legacy_generateToonExample_object, flat_map_app.
    reflexivity. }
  split; [|split; [|split]].
  - rewrite instructions_head_example, H, (HS 0), table_block. reflexivity.
  - rewrite legacy_instructions_head_example, H, (HL 0), legacy_table_block.
    reflexivity.
  - intros indent. rewrite (HS indent), table_block. reflexivity.
  - intros indent. rewrite (HL indent), legacy_table_block. reflexivity.
Qed.

(** The schema of the synthesizer's own test: the field [users] is the
    only one, an array of objects with the fields [id] and [name]. *)
Lemma table_header_and_two_rows_witness :
  Synth.zodSchemaToToonInstructions
    (ZodObject [("users",
                 ZodArray (ZodObject [("id", ZodNumber);
                                      ("name", ZodString)]))])
  = instructionsHead
      (ZodObject [("users",
                   ZodArray (ZodObject [("id", ZodNumber);
                                        ("name", ZodString)]))])
    ++ Js.join Js.nl
         [("users" ++ "[2]{" ++ "id" ++ "," ++ "name" ++ "}:" ++ Js.nl
           ++ "  " ++ Synth.getExampleValue SNumber false ++ ","
           ++ Synth.getExampleValue SString false ++ Js.nl
           ++ "  " ++ Synth.getExampleValue SNumber true ++ ","
           ++ Synth.getExampleValue SString true)]
    ++ Synth.closingText.
Proof.
  apply (table_header_and_two_rows
           (ZodObject [("users",
                        ZodArray (ZodObject [("id", ZodNumber);
                                             ("name", ZodString)]))])
           [] [] "users" "id" "name" SNumber SString).
  reflexivity.
Defined.
